(** * Patient Registry core of the clinic management system

    A shallow embedding of
    - the form-side identifier and field validation
      (frontend/src/app/add-patient/page.tsx: [validateHN], [validatePhone],
      [validateAge], [formatHN], [addLeadingZeros], [formatPhoneNumber]), and
    - the in-memory patient store
      (backend/internal/database/mock.go: [GetAll], [GetByID], [Create],
      [Update], [Delete]),
    together with the properties the specification states about them. *)

From Stdlib Require Import ZArith String Ascii List Lia Bool.
From stdpp Require Import gmap strings list fin_maps sorting.

Open Scope string_scope.

(** ** JavaScript string primitives used by the form

    Text is modelled as [string], one [ascii] per code unit, so the model
    covers text whose code units are below 256. The form's regular
    expressions single out ASCII letters and digits only, and [formatHN],
    the one caller of [toUpperCase], discards every other code unit right
    after it. *)
Module JS.

Definition isDigit (c : ascii) : bool :=
  (48 <=? nat_of_ascii c)%nat && (nat_of_ascii c <=? 57)%nat.

Definition isLower (c : ascii) : bool :=
  (97 <=? nat_of_ascii c)%nat && (nat_of_ascii c <=? 122)%nat.

(** [c.toUpperCase()] on one code unit: a-z go to A-Z, the rest is kept. *)
Definition upperChar (c : ascii) : ascii :=
  if isLower c then ascii_of_nat (nat_of_ascii c - 32) else c.

(** [s.toUpperCase()] *)
Fixpoint toUpperCase (s : string) : string :=
  match s with
  | EmptyString => EmptyString
  | String c s' => String (upperChar c) (toUpperCase s')
  end.

(** [s.replace(/[^...]/g, '')]: keep the characters satisfying [keep]. *)
Fixpoint keepChars (keep : ascii -> bool) (s : string) : string :=
  match s with
  | EmptyString => EmptyString
  | String c s' =>
      if keep c then String c (keepChars keep s') else keepChars keep s'
  end.

(** [s.replace(/\D/g, '')] *)
Definition digitsOnly (s : string) : string := keepChars isDigit s.

(** every character of [s] satisfies [p] *)
Fixpoint allChars (p : ascii -> bool) (s : string) : bool :=
  match s with
  | EmptyString => true
  | String c s' => p c && allChars p s'
  end.

(** [s.startsWith(p)] *)
Fixpoint startsWith (p s : string) : bool :=
  match p, s with
  | EmptyString, _ => true
  | String _ _, EmptyString => false
  | String a p', String b s' => Ascii.eqb a b && startsWith p' s'
  end.

(** [s.slice(a, b)] for [0 <= a <= b] *)
Definition slice (a b : nat) (s : string) : string :=
  String.substring a (b - a) s.

(** [s.slice(a)] and [s.substring(a)] for [0 <= a] *)
Definition sliceFrom (a : nat) (s : string) : string :=
  String.substring a (String.length s - a) s.

(** the string of [n] copies of [c] *)
Fixpoint repeatChar (n : nat) (c : ascii) : string :=
  match n with
  | O => EmptyString
  | S n' => String c (repeatChar n' c)
  end.

(** [s.padStart(n, c)] for a one-character pad *)
Definition padStart (n : nat) (c : ascii) (s : string) : string :=
  repeatChar (n - String.length s) c ++ s.

(** [!s] on a string: only the empty string is falsy *)
Definition isEmpty (s : string) : bool :=
  match s with EmptyString => true | _ => false end.

(** [/^\d/.test(s)] *)
Definition startsWithDigit (s : string) : bool :=
  match s with
  | EmptyString => false
  | String c _ => isDigit c
  end.

End JS.

(** ** Field validation (add-patient form) *)
Module Form.
Import JS.

Inductive ValidationType := error | warning | success.

(** [interface FieldValidation] *)
Record FieldValidation := mkFieldValidation {
  isValid : bool;
  message : string;
  type : ValidationType
}.

(** The three-state outcome of the specification read off a
    [FieldValidation]. *)
Inductive Outcome := Accept | AcceptWithAdvisory | Reject.

Definition outcome (v : FieldValidation) : Outcome :=
  if isValid v then
    match type v with warning => AcceptWithAdvisory | _ => Accept end
  else Reject.

(** [hnPattern = /^HN\d{6}$/] *)
Definition hnPattern (hn : string) : bool :=
  match hn with
  | String "H" (String "N" ds) =>
      (String.length ds =? 6)%nat && allChars isDigit ds
  | _ => false
  end.

Definition validateHN (hn : string) : FieldValidation :=
  if isEmpty hn then
    mkFieldValidation false "กรุณากรอก HN" error
  else if negb (hnPattern hn) then
    mkFieldValidation false "รูปแบบ HN ต้องเป็น HNXXXXXX (6 ตัวเลข)" error
  else
    mkFieldValidation true "รูปแบบ HN ถูกต้อง" success.

Definition validatePhone (phone : string) : FieldValidation :=
  if isEmpty phone then mkFieldValidation true "" warning
  else
    let cleanPhone := digitsOnly phone in
    if (String.length cleanPhone <? 9)%nat then
      mkFieldValidation false "เบอร์โทรต้องมีอย่างน้อย 9 หลัก" error
    else if (12 <? String.length cleanPhone)%nat then
      mkFieldValidation false "เบอร์โทรต้องไม่เกิน 12 หลัก" error
    else if (String.length cleanPhone =? 10)%nat
            && (startsWith "06" cleanPhone || startsWith "08" cleanPhone
                || startsWith "09" cleanPhone) then
      mkFieldValidation true "เบอร์มือถือถูกต้อง" success
    else if (String.length cleanPhone =? 9)%nat
            && startsWith "0" cleanPhone then
      mkFieldValidation true "เบอร์บ้านถูกต้อง" success
    else
      mkFieldValidation false "รูปแบบเบอร์โทรไม่ถูกต้อง" error.

(** [age] is the integer the form obtained from [parseInt(value) || 0]. *)
Definition validateAge (age : Z) : FieldValidation :=
  if (age =? 0)%Z then
    mkFieldValidation false "กรุณากรอกอายุ" error
  else if (age <? 0)%Z then
    mkFieldValidation false "อายุต้องเป็นจำนวนบวก" error
  else if (150 <? age)%Z then
    mkFieldValidation false "อายุต้องไม่เกิน 150 ปี" error
  else if (100 <? age)%Z then
    mkFieldValidation true "โปรดตรวจสอบอายุให้ถูกต้อง" warning
  else
    mkFieldValidation true "อายุถูกต้อง" success.

(** the character class [[HN0-9]] *)
Definition isHN09 (c : ascii) : bool :=
  isDigit c || Ascii.eqb c "H" || Ascii.eqb c "N".

(** [formatHN], first statement:
    [input.toUpperCase().replace(/[^HN0-9]/g, '')] *)
Definition stripHN (input : string) : string :=
  keepChars isHN09 (toUpperCase input).

(** [formatHN], second statement: a number typed without the prefix gets
    one. *)
Definition prefixHN (cleaned : string) : string :=
  if negb (isEmpty cleaned) && startsWithDigit cleaned
  then "HN" ++ cleaned else cleaned.

Definition formatHN (input : string) : string :=
  let cleaned := prefixHN (stripHN input) in
  if startsWith "HN" cleaned then
    let numberPart := sliceFrom 2 cleaned in
    if (6 <? String.length numberPart)%nat then
      "HN" ++ slice 0 6 numberPart
    else "HN" ++ numberPart
  else cleaned.

Definition addLeadingZeros (hn : string) : string :=
  if isEmpty hn || negb (startsWith "HN" hn) then hn
  else
    let numberPart := sliceFrom 2 hn in
    if (0 <? String.length numberPart)%nat
       && (String.length numberPart <? 6)%nat then
      "HN" ++ padStart 6 "0" numberPart
    else hn.

Definition formatPhoneNumber (phone : string) : string :=
  let cleaned := digitsOnly phone in
  if (String.length cleaned <=? 3)%nat then cleaned
  else if (String.length cleaned <=? 6)%nat then
    slice 0 3 cleaned ++ "-" ++ sliceFrom 3 cleaned
  else if (String.length cleaned <=? 10)%nat then
    slice 0 3 cleaned ++ "-" ++ slice 3 6 cleaned ++ "-" ++ sliceFrom 6 cleaned
  else
    slice 0 3 cleaned ++ "-" ++ slice 3 6 cleaned ++ "-" ++ slice 6 10 cleaned.

(** The hospital number as the form submits it: [handleInputChange] stores
    [formatHN(value)], [handleFieldBlur] replaces it by [addLeadingZeros]
    of it, and [handleSubmit] sends it only when [validateHN] accepts. *)
Definition parseHN (raw : string) : option string :=
  let hn := addLeadingZeros (formatHN raw) in
  if isValid (validateHN hn) then Some hn else None.

Definition isUpper (c : ascii) : bool :=
  (65 <=? nat_of_ascii c)%nat && (nat_of_ascii c <=? 90)%nat.

(** [parse] as section 4.1 of the specification words it, for comparison
    with [parseHN]: strip the characters outside [[A-Z0-9]], require [HN]
    followed by 1 to 6 digits, left-pad the digits with zeros to 6. *)
Definition parse_spec (raw : string) : option string :=
  match keepChars (fun c => isUpper c || isDigit c) raw with
  | String "H" (String "N" ds) =>
      if (1 <=? String.length ds)%nat && (String.length ds <=? 6)%nat
         && allChars isDigit ds
      then Some ("HN" ++ padStart 6 "0" ds) else None
  | _ => None
  end.

End Form.

(** ** The in-memory patient store (mock.go) *)
Module Store.

(** [time.Time], as a reading of the process's monotonic clock. *)
Definition Time := Z.

(** [type Patient struct]. The optional [*string] fields are modelled by
    the value they point to; no code of the repository writes through
    these pointers. *)
Record Patient := mkPatient {
  HN : string;
  FullName : string;
  Gender : string;
  Nickname : option string;
  Phone : option string;
  Age : Z;
  DateOfBirth : option string;
  Photo : option string;
  CreatedAt : Time;
  UpdatedAt : Time
}.

Definition setCreatedAt (t : Time) (p : Patient) : Patient :=
  mkPatient (HN p) (FullName p) (Gender p) (Nickname p) (Phone p) (Age p)
            (DateOfBirth p) (Photo p) t (UpdatedAt p).

Definition setUpdatedAt (t : Time) (p : Patient) : Patient :=
  mkPatient (HN p) (FullName p) (Gender p) (Nickname p) (Phone p) (Age p)
            (DateOfBirth p) (Photo p) (CreatedAt p) t.

(** The errors the store builds with [fmt.Errorf]. *)
Inductive error :=
| NotFound (hnString : string)        (* GetByID, Delete *)
| AlreadyExists (hn : string)         (* Create *)
| UpdateNotFound (hn : string).       (* Update *)

(** [err.Error()] *)
Definition Error (e : error) : string :=
  match e with
  | NotFound h => "patient with hn " ++ h ++ " not found"
  | AlreadyExists h => "patient with HN " ++ h ++ " already exists"
  | UpdateNotFound h => "patient with HN " ++ h ++ " not found"
  end.

(** *** [fmt.Sprintf("HN%06d", id)] *)

Definition digitChar (d : Z) : ascii := ascii_of_nat (48 + Z.to_nat d).

Fixpoint decimalFuel (fuel : nat) (n : Z) : string :=
  match fuel with
  | O => ""
  | S fuel' =>
      (if (n <? 10)%Z then "" else decimalFuel fuel' (n / 10))
        ++ String (digitChar (n mod 10)) ""
  end.

(** the decimal digits of [n >= 0], without leading zeros *)
Definition decimal (n : Z) : string :=
  decimalFuel (S (Z.to_nat (Z.log2 n))) n.

(** [%06d]: width 6, zero flag; the sign counts towards the width *)
Definition fmt06d (n : Z) : string :=
  if (n <? 0)%Z then "-" ++ JS.padStart 5 "0" (decimal (- n))
  else JS.padStart 6 "0" (decimal n).

Definition hnString (id : Z) : string := "HN" ++ fmt06d id.

(** *** The number in a hospital number

    The handlers obtain the [id] they pass to [GetByID] and [Delete] with
    [fmt.Sscanf(hnString, "HN%d", &id)]. On a hospital number made of [HN]
    and decimal digits only, that is the value of the digits, most
    significant first. *)
Definition digitVal (c : ascii) : Z := Z.of_nat (nat_of_ascii c - 48).

Fixpoint decValue (acc : Z) (ds : string) : Z :=
  match ds with
  | EmptyString => acc
  | String c ds' => decValue (10 * acc + digitVal c) ds'
  end.

Definition hnNumber (hn : string) : Z := decValue 0 (JS.sliceFrom 2 hn).

(** *** The repository and its clock

    [patients] is the map of the struct; [ticks] counts the calls of
    [time.Now()] made so far, the n-th of which returns [clock n]. The
    mutex makes every method run alone, so a method is one function from
    the state before to the state after. *)
Record MockPatientRepository := mkRepo {
  patients : gmap string Patient;
  ticks : nat
}.

Inductive result (A : Type) :=
| Ok (a : A)
| Err (e : error).
Arguments Ok {A} a.
Arguments Err {A} e.

Definition M (A : Type) : Type :=
  MockPatientRepository -> A * MockPatientRepository.

Definition ret {A} (a : A) : M A := fun r => (a, r).

Definition bind {A B} (k : A -> M B) (m : M A) : M B :=
  fun r => let (a, r') := m r in k a r'.

#[global] Instance M_ret : MRet M := @ret.
#[global] Instance M_bind : MBind M := @bind.

Definition readPatients : M (gmap string Patient) :=
  fun r => (patients r, r).

Definition writePatients (f : gmap string Patient -> gmap string Patient)
  : M unit :=
  fun r => (tt, mkRepo (f (patients r)) (ticks r)).

Definition newestFirst (a b : Patient) : Prop :=
  (CreatedAt b <= CreatedAt a)%Z.

#[global] Instance newestFirst_dec a b : Decision (newestFirst a b).
Proof. unfold newestFirst. apply _. Defined.

(** The records held, in the order the map happens to enumerate them. *)
Definition records (r : MockPatientRepository) : list Patient :=
  snd <$> map_to_list (patients r).

(** [GetAll]: Go enumerates the map in an unspecified order and
    [sort.Slice] is not stable, so any arrangement of the records in which
    no later one was created after an earlier one can be returned. *)
Definition GetAll_returns (r : MockPatientRepository) (l : list Patient)
  : Prop :=
  l ≡ₚ records r ∧ StronglySorted newestFirst l.

(** One such arrangement, computed. *)
Definition GetAll (r : MockPatientRepository) : list Patient :=
  merge_sort newestFirst (records r).

Definition GetByID (id : Z) (r : MockPatientRepository) : result Patient :=
  let hnString := hnString id in
  match patients r !! hnString with
  | None => Err (NotFound hnString)
  | Some patient => Ok patient
  end.

Section WithClock.

Variable clock : nat -> Time.

(** [time.Now()] *)
Definition timeNow : M Time :=
  fun r => (clock (ticks r), mkRepo (patients r) (S (ticks r))).

(** [p] with the two timestamps a successful [Create] on [r] gives it *)
Definition stamped (p : Patient) (r : MockPatientRepository) : Patient :=
  setUpdatedAt (clock (S (ticks r))) (setCreatedAt (clock (ticks r)) p).

(** [Create]: returns the caller's struct as the call leaves it, and
    the error ([None] for [nil]). *)
Definition Create (p : Patient) : M (Patient * option error) :=
  ps ← readPatients;
  match ps !! HN p with
  | Some _ => ret (p, Some (AlreadyExists (HN p)))
  | None =>
      t1 ← timeNow;
      let p := setCreatedAt t1 p in
      t2 ← timeNow;
      let p := setUpdatedAt t2 p in
      let patientCopy := p in
      _ ← writePatients (insert (HN p) patientCopy);
      ret (p, None)
  end.

(** [Update]: the stored struct is changed in place, then its
    timestamps are copied to the caller's struct. *)
Definition Update (p : Patient) : M (Patient * option error) :=
  ps ← readPatients;
  match ps !! HN p with
  | None => ret (p, Some (UpdateNotFound (HN p)))
  | Some existing =>
      t ← timeNow;
      let existing :=
        mkPatient (HN existing) (FullName p) (Gender p) (Nickname p)
                  (Phone p) (Age p) (DateOfBirth p) (Photo p)
                  (CreatedAt existing) t in
      _ ← writePatients (insert (HN p) existing);
      let p := setCreatedAt (CreatedAt existing) p in
      let p := setUpdatedAt (UpdatedAt existing) p in
      ret (p, None)
  end.

Definition Delete (id : Z) : M (option error) :=
  let hnString := hnString id in
  ps ← readPatients;
  match ps !! hnString with
  | None => ret (Some (NotFound hnString))
  | Some _ =>
      _ ← writePatients (delete hnString);
      ret None
  end.

Definition samplePatients : list Patient :=
  [ mkPatient "HN000001" "นายสมชาย ใจดี" "ชาย" (Some "ชาย")
              (Some "081-234-5678") 35%Z (Some "1989-03-15") None 0%Z 0%Z;
    mkPatient "HN000002" "นางสาวสมหญิง สวยงาม" "หญิง" (Some "หญิง")
              (Some "082-345-6789") 28%Z (Some "1996-07-22") None 0%Z 0%Z;
    mkPatient "HN000003" "นายวิชัย เก่งกาจ" "ชาย" (Some "วิชัย")
              (Some "083-456-7890") 42%Z (Some "1982-11-08") None 0%Z 0%Z ].

Definition createSampleData : M unit :=
  fun r => (tt, fold_left (fun r p => snd (Create p r)) samplePatients r).

(** [NewMockPatientRepository], called when [n] readings of the clock
    have been taken. *)
Definition NewMockPatientRepository (n : nat) : MockPatientRepository :=
  snd (createSampleData (mkRepo ∅ n)).

(** *** Calls and runs *)
Inductive Call :=
| CallGetAll
| CallGetByID (id : Z)
| CallCreate (p : Patient)
| CallUpdate (p : Patient)
| CallDelete (id : Z).

Definition call (c : Call) (r : MockPatientRepository)
  : MockPatientRepository :=
  match c with
  | CallGetAll => r
  | CallGetByID _ => r
  | CallCreate p => snd (Create p r)
  | CallUpdate p => snd (Update p r)
  | CallDelete id => snd (Delete id r)
  end.

(** the repository after each call of a run, in order *)
Fixpoint trace (cs : list Call) (r : MockPatientRepository)
  : list MockPatientRepository :=
  match cs with
  | [] => []
  | c :: cs' => call c r :: trace cs' (call c r)
  end.

Definition run (cs : list Call) (r : MockPatientRepository)
  : MockPatientRepository :=
  fold_left (fun r c => call c r) cs r.

(** [Create] calls in the order in which they get the lock, with the
    error each of them returns. *)
Fixpoint createAll (ps : list Patient) (r : MockPatientRepository)
  : list (option error) * MockPatientRepository :=
  match ps with
  | [] => ([], r)
  | p :: ps' =>
      let r1 := snd (Create p r) in
      (snd (fst (Create p r)) :: fst (createAll ps' r1),
       snd (createAll ps' r1))
  end.

End WithClock.

(** [p] and [q] agree on every field the caller supplies, that is on all
    fields but the two timestamps. *)
Definition sameData (p q : Patient) : Prop :=
  HN p = HN q /\ FullName p = FullName q /\ Gender p = Gender q /\
  Nickname p = Nickname q /\ Phone p = Phone q /\ Age p = Age q /\
  DateOfBirth p = DateOfBirth q /\ Photo p = Photo q.

(** The repositories a program can hold: a new, empty one, changed by
    calls only ([patients] is not exported). *)
Inductive reachable (clock : nat -> Time) : MockPatientRepository -> Prop :=
| reachable_empty (n : nat) : reachable clock (mkRepo ∅ n)
| reachable_call (c : Call) (r : MockPatientRepository) :
    reachable clock r -> reachable clock (call clock c r).

(** A clock that advances by one with every reading. *)
Definition tickClock (n : nat) : Time := Z.of_nat n.

(** The create request of the specification's end-to-end example, with
    the hospital number left open. *)
Definition somchaiRequest (hn : string) : Patient :=
  mkPatient hn "Somchai Jaidee" "male" None None 35%Z None None 0%Z 0%Z.

(** Every record is filed under its own hospital number. *)
Definition keyed (r : MockPatientRepository) : Prop :=
  forall k p, patients r !! k = Some p -> HN p = k.

(** No record carries a timestamp later than the next clock reading. *)
Definition timely (clock : nat -> Time) (r : MockPatientRepository) : Prop :=
  forall k p, patients r !! k = Some p ->
    (CreatedAt p <= UpdatedAt p)%Z /\ (UpdatedAt p <= clock (ticks r))%Z.

(** The clock never runs backwards. *)
Definition monotone (clock : nat -> Time) : Prop :=
  forall i j, (i <= j)%nat -> (clock i <= clock j)%Z.

End Store.

(** ** What the calls address, and stricter clocks *)
Module Calls.
Import Store.

(** The key of the map a call reads or writes, if it touches one record. *)
Definition target (c : Call) : option string :=
  match c with
  | CallGetAll => None
  | CallGetByID id => Some (hnString id)
  | CallCreate p => Some (HN p)
  | CallUpdate p => Some (HN p)
  | CallDelete id => Some (hnString id)
  end.

(** A clock fine enough to tell any two readings apart. *)
Definition increasing (clock : nat -> Time) : Prop :=
  forall i j, (i < j)%nat -> (clock i < clock j)%Z.

(** No record was created at or after the next clock reading, and no two
    records were created at the same reading. *)
Definition created_apart (clock : nat -> Time) (r : MockPatientRepository)
  : Prop :=
  (forall k p, patients r !! k = Some p ->
               (CreatedAt p < clock (ticks r))%Z) /\
  (forall k1 k2 p1 p2,
      patients r !! k1 = Some p1 -> patients r !! k2 = Some p2 ->
      CreatedAt p1 = CreatedAt p2 -> k1 = k2).

End Calls.

(** ** More of the add-patient form: generated numbers and the age *)
Module Intake.
Import JS Form.

(** [generateHN], where [floor] stands for the value of
    [Math.floor(Math.random() * 999999)] drawn by the call. *)
Definition generateHN (floor : Z) : string :=
  let randomNum := (floor + 1)%Z in
  "HN" ++ padStart 6 "0" (Store.decimal randomNum).

(** The local calendar fields of a valid [Date]: [getFullYear()],
    [getMonth()] (0 for January) and [getDate()]. *)
Record Date := mkDate {
  getFullYear : Z;
  getMonth : Z;
  getDate : Z
}.

(** The age the date-of-birth effect computes from [today = new Date()]
    and [birthDate = new Date(formData.dateOfBirth)]. *)
Definition ageOn (today birthDate : Date) : Z :=
  let age := (getFullYear today - getFullYear birthDate)%Z in
  let monthDiff := (getMonth today - getMonth birthDate)%Z in
  if (monthDiff <? 0)%Z
     || ((monthDiff =? 0)%Z && (getDate today <? getDate birthDate)%Z)
  then (age - 1)%Z else age.

(** The effect itself, run with a date of birth present: from
    [formData.age] before to [formData.age] after. *)
Definition ageEffect (today birthDate : Date) (formAge : Z) : Z :=
  let age := ageOn today birthDate in
  if (0 <=? age)%Z && (age <=? 150)%Z && negb (age =? formAge)%Z
  then age else formAge.

(** [a] is the same day as [b] or an earlier one. *)
Definition notAfter (a b : Date) : Prop :=
  (getFullYear a < getFullYear b)%Z \/
  (getFullYear a = getFullYear b /\
   ((getMonth a < getMonth b)%Z \/
    (getMonth a = getMonth b /\ (getDate a <= getDate b)%Z))).

(** The day and month of [birthDate], [n] years on. *)
Definition anniversary (birthDate : Date) (n : Z) : Date :=
  mkDate (getFullYear birthDate + n) (getMonth birthDate) (getDate birthDate).

End Intake.

(** ** Names and titles on the add-patient form

    Names are Thai text, so here a string is the list of its UTF-16 code
    units, as JavaScript has it. *)
Module Names.
Import Form.
Local Open Scope N_scope.

(** the title options: นาย, นาง, นางสาว *)
Definition title_nai : list N := [0x0E19; 0x0E32; 0x0E22].
Definition title_nang : list N := [0x0E19; 0x0E32; 0x0E07].
Definition title_nangsao : list N :=
  [0x0E19; 0x0E32; 0x0E07; 0x0E2A; 0x0E32; 0x0E27].

(** the gender values: ชาย, หญิง *)
Definition gender_chai : list N := [0x0E0A; 0x0E32; 0x0E22].
Definition gender_ying : list N := [0x0E2B; 0x0E0D; 0x0E34; 0x0E07].

(** สาว, the part of นางสาว after นาง *)
Definition sao : list N := [0x0E2A; 0x0E32; 0x0E27].

Fixpoint startsWith (p s : list N) : bool :=
  match p, s with
  | [], _ => true
  | _ :: _, [] => false
  | a :: p', b :: s' => (a =? b) && startsWith p' s'
  end.

(** a string used as a condition: true unless empty *)
Definition truthy (s : list N) : bool :=
  match s with [] => false | _ => true end.

(** [s.replace(/^(นาย|นาง|นางสาว)/, '')]: at the start of [s] the
    alternatives are tried in the order written, and what the first one
    that matches covers is removed. *)
Definition stripTitle (s : list N) : list N :=
  if startsWith title_nai s then drop (length title_nai) s
  else if startsWith title_nang s then drop (length title_nang) s
  else if startsWith title_nangsao s then drop (length title_nangsao) s
  else s.

Definition getGenderFromPrefix (prefix : list N) : list N :=
  if decide (prefix = title_nai) then gender_chai
  else if decide (prefix = title_nang) then gender_ying
  else if decide (prefix = title_nangsao) then gender_ying
  else [].

(** [\s] and the characters [trim()] removes: WhiteSpace and
    LineTerminator of ECMAScript *)
Definition isSpace (c : N) : bool :=
  ((9 <=? c) && (c <=? 13)) || (c =? 32) || (c =? 0xA0) || (c =? 0x1680)
  || ((0x2000 <=? c) && (c <=? 0x200A)) || (c =? 0x2028) || (c =? 0x2029)
  || (c =? 0x202F) || (c =? 0x205F) || (c =? 0x3000) || (c =? 0xFEFF).

(** the character class [[ก-๏a-zA-Z\s\.]] *)
Definition nameChar (c : N) : bool :=
  ((0x0E01 <=? c) && (c <=? 0x0E4F)) || ((97 <=? c) && (c <=? 122))
  || ((65 <=? c) && (c <=? 90)) || isSpace c || (c =? 46).

(** [value.replace(/[^ก-๏a-zA-Z\s\.]/g, '')] *)
Definition cleanName (value : list N) : list N := List.filter nameChar value.

Fixpoint trimStart (s : list N) : list N :=
  match s with
  | [] => []
  | c :: s' => if isSpace c then trimStart s' else s
  end.

(** [s.trim()] *)
Definition trim (s : list N) : list N :=
  rev (trimStart (rev (trimStart s))).

(** [namePattern = /^[ก-๏a-zA-Z\s\.]+$/] *)
Definition namePattern (name : list N) : bool :=
  truthy name && forallb nameChar name.

Definition validateFullName (name : list N) : FieldValidation :=
  if negb (truthy name) || (length (trim name) =? 0)%nat then
    mkFieldValidation false "กรุณากรอกชื่อ-นามสกุล" error
  else if (length (trim name) <? 2)%nat then
    mkFieldValidation false "ชื่อต้องมีอย่างน้อย 2 ตัวอักษร" error
  else if (100 <? length (trim name))%nat then
    mkFieldValidation false "ชื่อต้องไม่เกิน 100 ตัวอักษร" error
  else if negb (namePattern name) then
    mkFieldValidation false
      "ชื่อควรประกอบด้วยตัวอักษรไทยหรืออังกฤษเท่านั้น" error
  else
    mkFieldValidation true "ชื่อถูกต้อง" success.

(** The three fields of [formData] that the title and the name inputs
    write. *)
Record NameFields := mkNameFields {
  titlePrefix : list N;
  gender : list N;
  fullName : list N
}.

(** [handleInputChange], [name === 'titlePrefix'] *)
Definition onTitlePrefix (value : list N) (prev : NameFields) : NameFields :=
  let autoGender := getGenderFromPrefix value in
  mkNameFields value autoGender
    (if truthy value then value ++ stripTitle (fullName prev)
     else stripTitle (fullName prev)).

(** [handleInputChange], [name === 'fullName'] *)
Definition onFullName (value : list N) (prev : NameFields) : NameFields :=
  let cleanName := cleanName value in
  mkNameFields (titlePrefix prev) (gender prev)
    (if truthy (titlePrefix prev) then titlePrefix prev ++ cleanName
     else cleanName).

(** what the name input shows: its [value] attribute *)
Definition shownFullName (f : NameFields) : list N := stripTitle (fullName f).

(** the [fullName] of [submitData] in [handleSubmit] *)
Definition submitFullName (f : NameFields) : list N :=
  if truthy (titlePrefix f) then titlePrefix f ++ stripTitle (fullName f)
  else fullName f.

End Names.

(** ** The second add-patient form (digits-only hospital numbers) *)
Module FormV2.
Import JS Form.

Definition addLeadingZeros (hn : string) : string :=
  if isEmpty hn then ""
  else
    let cleanHN := digitsOnly hn in
    padStart 6 "0" cleanHN.

Definition formatHN (hn : string) : string :=
  let cleanHN := digitsOnly hn in
  slice 0 6 cleanHN.

Definition validateHN (hn : string) : FieldValidation :=
  if isEmpty hn then
    mkFieldValidation false "กรุณาระบุหมายเลข HN" error
  else
    let cleanHN := digitsOnly hn in
    if (String.length cleanHN <? 1)%nat then
      mkFieldValidation false "HN ต้องมีอย่างน้อย 1 หลัก" error
    else if (6 <? String.length cleanHN)%nat then
      mkFieldValidation false "HN ต้องไม่เกิน 6 หลัก" error
    else
      mkFieldValidation true "HN ถูกต้อง" success.

Definition validatePhone (phone : string) : FieldValidation :=
  if isEmpty phone then
    mkFieldValidation false "กรุณาระบุเบอร์โทรศัพท์" error
  else
    let cleanPhone := digitsOnly phone in
    if negb (String.length cleanPhone =? 10)%nat then
      mkFieldValidation false "เบอร์โทรต้องมี 10 หลัก" error
    else
      mkFieldValidation true "เบอร์โทรถูกต้อง" success.

(** The [hn] of the request body: [handleInputChange] keeps
    [formatHN(value)] in [formData.hn] and [handleSubmit] sends
    [addLeadingZeros] of it. *)
Definition submittedHN (value : string) : string :=
  addLeadingZeros (formatHN value).

End FormV2.

(** * Properties *)

(** ** Strings *)
Section StringFacts.
Import JS.

Lemma append_cons (c : ascii) (s t : string) :
  String c s ++ t = String c (s ++ t).
Proof. reflexivity. Qed.

Lemma length_append (s t : string) :
  String.length (s ++ t) = (String.length s + String.length t)%nat.
Proof.
  induction s as [|c s IH]; [reflexivity|].
  rewrite append_cons. simpl. now rewrite IH.
Qed.

Lemma append_empty_r (s : string) : s ++ "" = s.
Proof.
  induction s as [|c s IH]; [reflexivity|].
  rewrite append_cons. now rewrite IH.
Qed.

Lemma append_assoc (s t u : string) : (s ++ t) ++ u = s ++ t ++ u.
Proof.
  induction s as [|c s IH]; [reflexivity|].
  rewrite !append_cons. now rewrite IH.
Qed.

Lemma substring_0_short (n : nat) (s : string) :
  (String.length s <= n)%nat -> String.substring 0 n s = s.
Proof.
  revert n. induction s as [|c s IH]; intros [|n] Hn; simpl in *;
    try reflexivity; try lia.
  f_equal. apply IH. lia.
Qed.

Lemma length_substring_0 (n : nat) (s : string) :
  String.length (String.substring 0 n s) = Nat.min n (String.length s).
Proof.
  revert n. induction s as [|c s IH]; intros [|n]; simpl; try reflexivity.
  now rewrite IH.
Qed.

Lemma sliceFrom_0 (s : string) : sliceFrom 0 s = s.
Proof. unfold sliceFrom. apply substring_0_short. lia. Qed.

Lemma sliceFrom_cons (n : nat) (c : ascii) (s : string) :
  sliceFrom (S n) (String c s) = sliceFrom n s.
Proof. reflexivity. Qed.

Lemma length_repeatChar (n : nat) (c : ascii) :
  String.length (repeatChar n c) = n.
Proof. induction n as [|n IH]; simpl; [reflexivity | now rewrite IH]. Qed.

Lemma length_padStart (n : nat) (c : ascii) (s : string) :
  String.length (padStart n c s) = Nat.max n (String.length s).
Proof. unfold padStart. rewrite length_append, length_repeatChar. lia. Qed.

Lemma padStart_long (n : nat) (c : ascii) (s : string) :
  (n <= String.length s)%nat -> padStart n c s = s.
Proof.
  intros Hn. unfold padStart.
  replace (n - String.length s)%nat with 0%nat by lia. reflexivity.
Qed.

Lemma allChars_append (p : ascii -> bool) (s t : string) :
  allChars p (s ++ t) = allChars p s && allChars p t.
Proof.
  induction s as [|c s IH]; [reflexivity|].
  rewrite append_cons. simpl. rewrite IH. now rewrite andb_assoc.
Qed.

Lemma allChars_repeatChar (p : ascii -> bool) (n : nat) (c : ascii) :
  p c = true -> allChars p (repeatChar n c) = true.
Proof. intros Hc. induction n as [|n IH]; simpl; [reflexivity|]. now rewrite Hc. Qed.

Lemma allChars_padStart_0 (n : nat) (s : string) :
  allChars isDigit (padStart n "0" s) = allChars isDigit s.
Proof.
  unfold padStart. rewrite allChars_append, allChars_repeatChar; reflexivity.
Qed.

Lemma startsWith_cons (a b : ascii) (p s : string) :
  startsWith (String a p) (String b s) = Ascii.eqb a b && startsWith p s.
Proof. reflexivity. Qed.

Lemma startsWith_HN (s : string) :
  startsWith "HN" s = true <-> exists ds, s = "HN" ++ ds.
Proof.
  split.
  - destruct s as [|a [|b ds]]; try discriminate.
    + rewrite startsWith_cons. cbn [startsWith].
      rewrite andb_false_r. discriminate.
    + rewrite !startsWith_cons. cbn [startsWith]. rewrite andb_true_r.
      intros [Ha Hb]%andb_prop.
      apply Ascii.eqb_eq in Ha, Hb. subst a b. now exists ds.
  - intros [ds ->]. now destruct ds.
Qed.

Lemma hnPattern_HN (ds : string) :
  Form.hnPattern ("HN" ++ ds)
  = (String.length ds =? 6)%nat && allChars isDigit ds.
Proof. reflexivity. Qed.

Lemma hnPattern_startsWith (s : string) :
  Form.hnPattern s = true -> exists ds, s = "HN" ++ ds.
Proof.
  destruct s as [|a [|b ds]]; simpl; try discriminate.
  - destruct a as [[] [] [] [] [] [] [] []]; discriminate.
  - destruct a as [[] [] [] [] [] [] [] []]; try discriminate.
    destruct b as [[] [] [] [] [] [] [] []]; try discriminate.
    intros _. now exists ds.
Qed.

End StringFacts.

(** ** Field validation *)
Section ValidationFacts.
Import JS Form.

Lemma validateAge_valid_iff (age : Z) :
  isValid (validateAge age) = true <-> (1 <= age <= 150)%Z.
Proof.
  unfold validateAge.
  destruct (Z.eqb_spec age 0); [simpl; split; [discriminate | lia]|].
  destruct (Z.ltb_spec age 0); [simpl; split; [discriminate | lia]|].
  destruct (Z.ltb_spec 150 age); [simpl; split; [discriminate | lia]|].
  destruct (Z.ltb_spec 100 age); simpl; split; auto; lia.
Qed.

Lemma validateAge_advisory_iff (age : Z) :
  outcome (validateAge age) = AcceptWithAdvisory <-> (100 < age <= 150)%Z.
Proof.
  unfold validateAge, outcome.
  destruct (Z.eqb_spec age 0); [simpl; split; [discriminate | lia]|].
  destruct (Z.ltb_spec age 0); [simpl; split; [discriminate | lia]|].
  destruct (Z.ltb_spec 150 age); [simpl; split; [discriminate | lia]|].
  destruct (Z.ltb_spec 100 age); simpl; split; auto; try discriminate; lia.
Qed.

Lemma validatePhone_nonempty (phone : string) :
  phone <> "" ->
  validatePhone phone =
    let cleanPhone := digitsOnly phone in
    if (String.length cleanPhone <? 9)%nat then
      mkFieldValidation false "เบอร์โทรต้องมีอย่างน้อย 9 หลัก" error
    else if (12 <? String.length cleanPhone)%nat then
      mkFieldValidation false "เบอร์โทรต้องไม่เกิน 12 หลัก" error
    else if (String.length cleanPhone =? 10)%nat
            && (startsWith "06" cleanPhone || startsWith "08" cleanPhone
                || startsWith "09" cleanPhone) then
      mkFieldValidation true "เบอร์มือถือถูกต้อง" success
    else if (String.length cleanPhone =? 9)%nat
            && startsWith "0" cleanPhone then
      mkFieldValidation true "เบอร์บ้านถูกต้อง" success
    else
      mkFieldValidation false "รูปแบบเบอร์โทรไม่ถูกต้อง" error.
Proof. destruct phone; [congruence | reflexivity]. Qed.

End ValidationFacts.

(** C6. Age validation, for every integer: 0, every negative value and every
    value above 150 are rejected (151 is rejected, 150 is accepted), and
    every accepted value above 100, such as 120, is accepted with an
    advisory, not plainly accepted. *)
Theorem validateAge_rules (age : Z) :
  (age = 0%Z -> Form.outcome (Form.validateAge age) = Form.Reject) /\
  ((age < 0)%Z -> Form.outcome (Form.validateAge age) = Form.Reject) /\
  ((150 < age)%Z -> Form.outcome (Form.validateAge age) = Form.Reject) /\
  Form.outcome (Form.validateAge 151) = Form.Reject /\
  Form.isValid (Form.validateAge 150) = true /\
  (Form.isValid (Form.validateAge age) = true -> (100 < age)%Z ->
   Form.outcome (Form.validateAge age) = Form.AcceptWithAdvisory) /\
  Form.outcome (Form.validateAge 120) = Form.AcceptWithAdvisory.
Proof.
  assert (Hrej : ~ (1 <= age <= 150)%Z ->
                 Form.outcome (Form.validateAge age) = Form.Reject).
  { intros Hout. unfold Form.outcome.
    destruct (Form.isValid (Form.validateAge age)) eqn:Hv; [|reflexivity].
    apply validateAge_valid_iff in Hv. contradiction. }
  repeat split; try reflexivity; try (intros; apply Hrej; lia).
  intros Hv Hgt. apply validateAge_valid_iff in Hv.
  apply validateAge_advisory_iff. lia.
Qed.

(** C7. Phone validation, for every non-empty input, on the digits left
    after stripping the non-digits: fewer than 9 or more than 12 digits are
    rejected; 10 digits are accepted exactly when they start with 06, 08 or
    09; 9 digits are accepted exactly when they start with 0; every other
    digit string is rejected; and 0812345678 is accepted and displayed as
    081-234-5678. *)
Theorem validatePhone_rules (phone : string) :
  phone <> "" ->
  let digits := JS.digitsOnly phone in
  let n := String.length digits in
  ((n < 9 \/ 12 < n)%nat -> Form.isValid (Form.validatePhone phone) = false) /\
  (n = 10%nat ->
   (Form.isValid (Form.validatePhone phone) = true <->
    JS.startsWith "06" digits || JS.startsWith "08" digits
    || JS.startsWith "09" digits = true)) /\
  (n = 9%nat ->
   (Form.isValid (Form.validatePhone phone) = true <->
    JS.startsWith "0" digits = true)) /\
  (n <> 9%nat -> n <> 10%nat ->
   Form.isValid (Form.validatePhone phone) = false) /\
  Form.outcome (Form.validatePhone "0812345678") = Form.Accept /\
  Form.formatPhoneNumber "0812345678" = "081-234-5678".
Proof.
  intros Hne digits n.
  assert (Hdisplay :
    Form.outcome (Form.validatePhone "0812345678") = Form.Accept /\
    Form.formatPhoneNumber "0812345678" = "081-234-5678")
    by (split; reflexivity).
  rewrite (validatePhone_nonempty phone Hne). cbv zeta.
  fold digits. fold n.
  set (mobile := JS.startsWith "06" digits || JS.startsWith "08" digits
                 || JS.startsWith "09" digits).
  set (landline := JS.startsWith "0" digits).
  clearbody mobile landline n.
  destruct (Nat.ltb_spec n 9) as [H9|H9];
    [repeat split; try apply Hdisplay; simpl; intros; try reflexivity;
     try lia; try discriminate|].
  destruct (Nat.ltb_spec 12 n) as [H12|H12];
    [repeat split; try apply Hdisplay; simpl; intros; try reflexivity;
     try lia; try discriminate|].
  destruct (Nat.eqb_spec n 10) as [H10|H10];
    destruct (Nat.eqb_spec n 9) as [H9'|H9']; try lia;
    destruct mobile, landline; simpl;
    repeat split; try apply Hdisplay; intros; try reflexivity; try lia;
    try discriminate; try congruence.
Qed.

Lemma validatePhone_rules_witness :
  "081-234-5678" <> "" /\
  Form.isValid (Form.validatePhone "081-234-5678") = true.
Proof.
  split; [discriminate|].
  destruct (validatePhone_rules "081-234-5678") as (_ & Hmobile & _);
    [discriminate|].
  apply Hmobile; reflexivity.
Defined.

(** ** Hospital numbers on the form *)
Section HospitalNumberFacts.
Import JS Form.

Lemma validateHN_valid_iff (hn : string) :
  isValid (validateHN hn) = true <-> hnPattern hn = true.
Proof.
  unfold validateHN. destruct hn as [|c s]; [simpl; split; discriminate|].
  cbn [isEmpty]. destruct (hnPattern (String c s)); simpl; split; auto.
Qed.

Lemma sliceFrom_2_HN (ds : string) : sliceFrom 2 ("HN" ++ ds) = ds.
Proof. change ("HN" ++ ds) with (String "H" (String "N" ds)).
       rewrite !sliceFrom_cons. apply sliceFrom_0. Qed.

Lemma formatHN_prefixed (raw ds : string) :
  prefixHN (stripHN raw) = "HN" ++ ds ->
  formatHN raw = "HN" ++ slice 0 6 ds.
Proof.
  intros Hc. unfold formatHN. cbv zeta. rewrite Hc.
  replace (startsWith "HN" ("HN" ++ ds)) with true
    by (symmetry; apply startsWith_HN; now exists ds).
  rewrite sliceFrom_2_HN.
  destruct (Nat.ltb_spec 6 (String.length ds)) as [Hl|Hl]; [reflexivity|].
  unfold slice. now rewrite substring_0_short by lia.
Qed.

Lemma formatHN_unprefixed (raw : string) :
  startsWith "HN" (prefixHN (stripHN raw)) = false ->
  formatHN raw = prefixHN (stripHN raw).
Proof. intros Hc. unfold formatHN. cbv zeta. now rewrite Hc. Qed.

Lemma addLeadingZeros_HN (x : string) :
  (String.length x <= 6)%nat ->
  addLeadingZeros ("HN" ++ x) =
    if isEmpty x then "HN" else "HN" ++ padStart 6 "0" x.
Proof.
  intros Hx. unfold addLeadingZeros.
  replace (startsWith "HN" ("HN" ++ x)) with true
    by (symmetry; apply startsWith_HN; now exists x).
  change (isEmpty ("HN" ++ x)) with false. cbn [orb negb].
  rewrite sliceFrom_2_HN.
  destruct x as [|c x]; [reflexivity|]. cbn [isEmpty].
  change (0 <? String.length (String c x))%nat with true. cbn [andb].
  destruct (Nat.ltb_spec (String.length (String c x)) 6) as [Hl|Hl];
    [reflexivity|].
  now rewrite padStart_long by lia.
Qed.

Lemma addLeadingZeros_other (s : string) :
  startsWith "HN" s = false -> addLeadingZeros s = s.
Proof.
  intros Hs. unfold addLeadingZeros. rewrite Hs. cbn [negb].
  now rewrite orb_true_r.
Qed.

Lemma append_HN_inj (x y : string) : "HN" ++ x = "HN" ++ y -> x = y.
Proof. intros H. now injection H. Qed.

Lemma parseHN_prefixed (raw ds : string) :
  prefixHN (stripHN raw) = "HN" ++ ds ->
  parseHN raw =
    if negb (isEmpty ds) && allChars isDigit (slice 0 6 ds)
    then Some ("HN" ++ padStart 6 "0" (slice 0 6 ds)) else None.
Proof.
  intros Hc. unfold parseHN. cbv zeta. rewrite (formatHN_prefixed _ _ Hc).
  assert (Hlen : (String.length (slice 0 6 ds) <= 6)%nat)
    by (unfold slice; rewrite length_substring_0; lia).
  rewrite (addLeadingZeros_HN _ Hlen).
  destruct ds as [|c ds]; [reflexivity|].
  change (isEmpty (slice 0 6 (String c ds))) with false.
  cbn [isEmpty negb andb].
  destruct (isValid (validateHN ("HN" ++ padStart 6 "0" (slice 0 6 (String c ds)))))
    eqn:Hv.
  - apply validateHN_valid_iff in Hv. rewrite hnPattern_HN in Hv.
    apply andb_prop in Hv as [_ Hd]. rewrite allChars_padStart_0 in Hd.
    now rewrite Hd.
  - destruct (allChars isDigit (slice 0 6 (String c ds))) eqn:Hd;
      [|reflexivity].
    assert (Hok : isValid (validateHN
              ("HN" ++ padStart 6 "0" (slice 0 6 (String c ds)))) = true).
    { apply validateHN_valid_iff. rewrite hnPattern_HN.
      rewrite allChars_padStart_0, Hd, length_padStart.
      replace (Nat.max 6 (String.length (slice 0 6 (String c ds))))
        with 6%nat by lia.
      reflexivity. }
    congruence.
Qed.

Lemma parseHN_unprefixed (raw : string) :
  startsWith "HN" (prefixHN (stripHN raw)) = false -> parseHN raw = None.
Proof.
  intros Hc. unfold parseHN. cbv zeta.
  rewrite (formatHN_unprefixed _ Hc), (addLeadingZeros_other _ Hc).
  destruct (isValid (validateHN (prefixHN (stripHN raw)))) eqn:Hv;
    [|reflexivity].
  apply validateHN_valid_iff, hnPattern_startsWith in Hv.
  apply startsWith_HN in Hv. congruence.
Qed.

End HospitalNumberFacts.

(** C4 as the specification words it fails on the form: an input with more
    than six digits after the prefix is cut to its first six digits and
    accepted, where the specification's parse rejects it; and letters other
    than H and N are stripped too, after upper-casing, so that HNA1 and hn1
    are accepted where the specification's parse rejects them. *)
Lemma parseHN_accepts_seven_digits :
  Form.prefixHN (Form.stripHN "HN1234567") = "HN1234567" /\
  Form.parseHN "HN1234567" = Some "HN123456" /\
  Form.parse_spec "HN1234567" = None /\
  Form.parseHN "HNA1" = Some "HN000001" /\
  Form.parse_spec "HNA1" = None /\
  Form.parseHN "hn1" = Some "HN000001" /\
  Form.parse_spec "hn1" = None.
Proof. repeat split; reflexivity. Qed.

(** C4, amended. For every raw text input, hospital-number parsing
    upper-cases the text and strips the characters outside [HN0-9], puts HN
    in front when the result starts with a digit, and then accepts exactly
    when the result is HN followed by at least one character whose first six
    characters are all digits; the accepted number is HN followed by those
    (at most six) digits left-padded with zeros to six. It rejects when
    nothing follows the prefix. *)
Theorem parseHN_accepts_iff (raw hn : string) :
  let cleaned := Form.prefixHN (Form.stripHN raw) in
  (Form.parseHN raw = Some hn <->
   exists rest,
     cleaned = "HN" ++ rest /\ rest <> "" /\
     JS.allChars JS.isDigit (JS.slice 0 6 rest) = true /\
     hn = "HN" ++ JS.padStart 6 "0" (JS.slice 0 6 rest)) /\
  (cleaned = "HN" -> Form.parseHN raw = None) /\
  (Form.parseHN raw = Some hn -> Form.hnPattern hn = true).
Proof.
  intros cleaned.
  assert (Hiff : Form.parseHN raw = Some hn <->
   exists rest,
     cleaned = "HN" ++ rest /\ rest <> "" /\
     JS.allChars JS.isDigit (JS.slice 0 6 rest) = true /\
     hn = "HN" ++ JS.padStart 6 "0" (JS.slice 0 6 rest)).
  { destruct (JS.startsWith "HN" cleaned) eqn:Hp.
    - apply startsWith_HN in Hp as [ds Hds].
      rewrite (parseHN_prefixed raw ds Hds). split.
      + destruct ds as [|c ds]; [discriminate|]. cbn [JS.isEmpty negb andb].
        destruct (JS.allChars JS.isDigit (JS.slice 0 6 (String c ds))) eqn:Hd;
          [|discriminate].
        intros [= <-]. exists (String c ds). repeat split; auto; discriminate.
      + intros (rest & Hc & Hne & Hd & ->).
        assert (rest = ds) as -> by (apply append_HN_inj; congruence).
        rewrite Hd. destruct ds; [congruence | reflexivity].
    - rewrite (parseHN_unprefixed raw Hp). split; [discriminate|].
      intros (rest & Hc & _).
      assert (JS.startsWith "HN" cleaned = true)
        by (apply startsWith_HN; now exists rest).
      congruence. }
  split; [exact Hiff|]. split.
  - intros Hc. apply (parseHN_prefixed raw "" Hc).
  - intros Hsome. apply Hiff in Hsome as (rest & _ & _ & Hd & ->).
    rewrite hnPattern_HN, allChars_padStart_0, Hd, length_padStart.
    unfold JS.slice. rewrite length_substring_0.
    replace (Nat.max 6 (Nat.min (6 - 0) (String.length rest))) with 6%nat by lia.
    reflexivity.
Qed.

(** ** Decimal rendering of surrogates *)
Section DecimalFacts.
Import JS Store.
Local Open Scope Z_scope.

Lemma isDigit_digitChar (d : Z) : 0 <= d < 10 -> isDigit (digitChar d) = true.
Proof.
  intros Hd.
  assert (d = 0 \/ d = 1 \/ d = 2 \/ d = 3 \/ d = 4 \/ d = 5 \/ d = 6 \/
          d = 7 \/ d = 8 \/ d = 9) as Hcases by lia.
  repeat (destruct Hcases as [-> | Hcases]; [reflexivity|]).
  now subst d.
Qed.

Lemma isDigit_range (c : ascii) :
  isDigit c = true -> (48 <= nat_of_ascii c <= 57)%nat.
Proof.
  unfold isDigit. intros [H1 H2]%andb_prop.
  apply Nat.leb_le in H1, H2. lia.
Qed.

Lemma digitVal_range (c : ascii) : isDigit c = true -> 0 <= digitVal c < 10.
Proof. intros Hc%isDigit_range. unfold digitVal. lia. Qed.

Lemma digitChar_digitVal (c : ascii) :
  isDigit c = true -> digitChar (digitVal c) = c.
Proof.
  intros Hc%isDigit_range. unfold digitChar, digitVal.
  rewrite Nat2Z.id.
  replace (48 + (nat_of_ascii c - 48))%nat with (nat_of_ascii c) by lia.
  apply ascii_nat_embedding.
Qed.

Lemma decimalFuel_S (fuel : nat) (n : Z) :
  decimalFuel (S fuel) n =
    ((if (n <? 10)%Z then "" else decimalFuel fuel (n / 10)%Z)
       ++ String (digitChar (n mod 10)%Z) "")%string.
Proof. reflexivity. Qed.

(** Any fuel above the binary length of [n] gives the same digits. *)
Lemma decimalFuel_enough (f : nat) :
  forall (g : nat) (n : Z),
    0 <= n < 2 ^ Z.of_nat (S f) -> (f <= g)%nat ->
    decimalFuel (S g) n = decimalFuel (S f) n.
Proof.
  induction f as [|f IH]; intros g n Hn Hg; rewrite !decimalFuel_S.
  - change (2 ^ Z.of_nat 1) with 2 in Hn.
    destruct (Z.ltb_spec n 10); [reflexivity | lia].
  - destruct (Z.ltb_spec n 10) as [|Hge]; [reflexivity|].
    destruct g as [|g]; [lia|].
    rewrite (IH g (n / 10)); [reflexivity| |lia].
    rewrite Nat2Z.inj_succ, Z.pow_succ_r in Hn by lia.
    split; [apply Z.div_pos; lia|].
    apply Z.div_lt_upper_bound; lia.
Qed.

Lemma decimal_bound (n : Z) :
  0 <= n -> 0 <= n < 2 ^ Z.of_nat (S (Z.to_nat (Z.log2 n))).
Proof.
  intros Hn. split; [exact Hn|].
  rewrite Nat2Z.inj_succ, Z2Nat.id by apply Z.log2_nonneg.
  destruct (Z.eq_dec n 0) as [->|Hne]; [reflexivity|].
  apply Z.log2_spec. lia.
Qed.

Lemma decimal_small (d : Z) :
  0 <= d < 10 -> decimal d = String (digitChar d) "".
Proof.
  intros Hd. unfold decimal. rewrite decimalFuel_S.
  destruct (Z.ltb_spec d 10); [|lia].
  now rewrite Z.mod_small by lia.
Qed.

Lemma decimal_step (v d : Z) :
  0 < v -> 0 <= d < 10 ->
  decimal (10 * v + d) = (decimal v ++ String (digitChar d) "")%string.
Proof.
  intros Hv Hd. unfold decimal at 1. rewrite decimalFuel_S.
  destruct (Z.ltb_spec (10 * v + d) 10) as [|_]; [lia|].
  replace ((10 * v + d) / 10) with v
    by (apply (Z.div_unique (10 * v + d) 10 v d); lia).
  replace ((10 * v + d) mod 10) with d
    by (apply (Z.mod_unique (10 * v + d) 10 v d); lia).
  f_equal.
  assert (Hlog : Z.log2 v + 1 <= Z.log2 (10 * v + d)).
  { pose proof (Z.log2_double v Hv) as Hdbl.
    pose proof (Z.log2_le_mono (2 * v) (10 * v + d) ltac:(lia)). lia. }
  pose proof (Z.log2_nonneg v) as Hnn.
  destruct (Z.to_nat (Z.log2 (10 * v + d))) as [|g] eqn:Hg; [lia|].
  unfold decimal. apply decimalFuel_enough; [apply decimal_bound; lia | lia].
Qed.

Lemma allChars_decimalFuel (f : nat) :
  forall n, 0 <= n -> allChars isDigit (decimalFuel f n) = true.
Proof.
  induction f as [|f IH]; intros n Hn; [reflexivity|].
  rewrite decimalFuel_S, allChars_append. cbn [allChars].
  rewrite isDigit_digitChar by (apply Z.mod_pos_bound; lia).
  destruct (Z.ltb_spec n 10); [reflexivity|].
  rewrite IH by (apply Z.div_pos; lia). reflexivity.
Qed.

Lemma length_decimalFuel (f : nat) :
  forall (k : nat) (n : Z),
    0 <= n < 10 ^ Z.of_nat (S k) ->
    (String.length (decimalFuel f n) <= S k)%nat.
Proof.
  induction f as [|f IH]; intros k n Hn; [simpl; lia|].
  rewrite decimalFuel_S, length_append. cbn [String.length].
  destruct (Z.ltb_spec n 10) as [|Hge]; [simpl; lia|].
  destruct k as [|k]; [change (10 ^ Z.of_nat 1) with 10 in Hn; lia|].
  enough (String.length (decimalFuel f (n / 10)) <= S k)%nat by lia.
  apply IH. rewrite (Nat2Z.inj_succ (S k)), Z.pow_succ_r in Hn by lia.
  split; [apply Z.div_pos; lia|].
  apply Z.div_lt_upper_bound; lia.
Qed.

(** Reading digits after a non-zero start appends them to its rendering. *)
Lemma decimal_decValue (ds : string) :
  forall acc, 0 < acc -> allChars isDigit ds = true ->
    decimal (decValue acc ds) = (decimal acc ++ ds)%string.
Proof.
  induction ds as [|c ds IH]; intros acc Hacc Hds.
  - now rewrite append_empty_r.
  - cbn [allChars] in Hds. apply andb_prop in Hds as [Hc Hds].
    pose proof (digitVal_range c Hc) as Hr.
    cbn [decValue]. rewrite IH by (auto; lia).
    rewrite decimal_step by lia. rewrite digitChar_digitVal by exact Hc.
    now rewrite append_assoc.
Qed.

Lemma padStart_S_short (n : nat) (c : ascii) (s : string) :
  (String.length s <= n)%nat ->
  padStart (S n) c s = String c (padStart n c s).
Proof.
  intros Hs. unfold padStart.
  replace (S n - String.length s)%nat with (S (n - String.length s)) by lia.
  reflexivity.
Qed.

(** Rendering the value of a digit string at the width of the string gives
    the string back. *)
Lemma padStart_decimal_decValue (ds : string) :
  ds <> ""%string -> allChars isDigit ds = true ->
  padStart (String.length ds) "0" (decimal (decValue 0 ds)) = ds.
Proof.
  induction ds as [|c ds IH]; intros Hne Hds; [congruence|].
  cbn [allChars] in Hds. apply andb_prop in Hds as [Hc Hds].
  pose proof (digitVal_range c Hc) as Hr.
  cbn [decValue]. rewrite Z.mul_0_r, Z.add_0_l.
  destruct (Z.eq_dec (digitVal c) 0) as [Hz|Hnz].
  - assert (c = "0"%char) as ->.
    { rewrite <- (digitChar_digitVal c Hc), Hz. reflexivity. }
    rewrite Hz. destruct ds as [|c' ds]; [reflexivity|].
    specialize (IH ltac:(discriminate) Hds).
    remember (String c' ds) as t eqn:Ht.
    change (String.length (String "0" t)) with (S (String.length t)).
    rewrite padStart_S_short; [now rewrite IH|].
    apply (f_equal String.length) in IH. rewrite length_padStart in IH. lia.
  - rewrite decimal_decValue by (auto; lia).
    rewrite decimal_small by lia. rewrite digitChar_digitVal by exact Hc.
    apply padStart_long. reflexivity.
Qed.

Lemma decValue_bound (ds : string) :
  forall acc, 0 <= acc -> allChars isDigit ds = true ->
    0 <= decValue acc ds < (acc + 1) * 10 ^ Z.of_nat (String.length ds).
Proof.
  induction ds as [|c ds IH]; intros acc Hacc Hds.
  - cbn [decValue String.length]. change (10 ^ Z.of_nat 0) with 1. lia.
  - cbn [allChars] in Hds. apply andb_prop in Hds as [Hc Hds].
    pose proof (digitVal_range c Hc) as Hr.
    cbn [decValue String.length].
    specialize (IH (10 * acc + digitVal c) ltac:(lia) Hds).
    rewrite Nat2Z.inj_succ, Z.pow_succ_r by lia.
    assert (0 < 10 ^ Z.of_nat (String.length ds)) by (apply Z.pow_pos_nonneg; lia).
    nia.
Qed.

Lemma length_hnString (id : Z) : (8 <= String.length (hnString id))%nat.
Proof.
  unfold hnString, fmt06d. rewrite length_append.
  destruct (id <? 0).
  - rewrite length_append, length_padStart. simpl. lia.
  - rewrite length_padStart. simpl. lia.
Qed.

(** Surrogates from 0 to 999999 are rendered as canonical hospital
    numbers. *)
Lemma hnPattern_hnString (id : Z) :
  0 <= id <= 999999 -> Form.hnPattern (hnString id) = true.
Proof.
  intros Hid. unfold hnString, fmt06d.
  destruct (Z.ltb_spec id 0); [lia|].
  rewrite hnPattern_HN, allChars_padStart_0, length_padStart.
  unfold decimal. rewrite allChars_decimalFuel by lia.
  pose proof (length_decimalFuel (S (Z.to_nat (Z.log2 id))) 5 id) as Hlen.
  rewrite Nat.max_l by (apply Hlen; change (10 ^ Z.of_nat 6) with 1000000; lia).
  reflexivity.
Qed.

(** Every canonical hospital number is the rendering of its number, which
    lies between 0 and 999999. *)
Lemma hnString_hnNumber (hn : string) :
  Form.hnPattern hn = true ->
  0 <= hnNumber hn <= 999999 /\ hnString (hnNumber hn) = hn.
Proof.
  intros Hp. destruct (hnPattern_startsWith hn Hp) as [ds ->].
  rewrite hnPattern_HN in Hp. apply andb_prop in Hp as [Hlen Hds].
  apply Nat.eqb_eq in Hlen.
  unfold hnNumber. rewrite sliceFrom_2_HN.
  pose proof (decValue_bound ds 0 ltac:(lia) Hds) as Hb.
  rewrite Hlen in Hb. change (10 ^ Z.of_nat 6) with 1000000 in Hb.
  split; [lia|].
  unfold hnString, fmt06d. destruct (Z.ltb_spec (decValue 0 ds) 0); [lia|].
  f_equal. rewrite <- Hlen. apply padStart_decimal_decValue; [|exact Hds].
  intros ->. discriminate.
Qed.

End DecimalFacts.

(** ** The store, method by method *)
Section StoreFacts.
Import Store.
Variable clock : nat -> Time.

(** Unfold a method down to its lookup in the map and follow the branch
    that [H] selects. *)
Ltac follow_lookup H :=
  unfold Create, Update, Delete, mbind, M_bind, bind, readPatients;
  now rewrite H.

Lemma Create_exists (p q : Patient) (r : MockPatientRepository) :
  patients r !! HN p = Some q ->
  Create clock p r = ((p, Some (AlreadyExists (HN p))), r).
Proof.
  intros Hq. follow_lookup Hq.
Qed.

Lemma Create_fresh (p : Patient) (r : MockPatientRepository) :
  patients r !! HN p = None ->
  Create clock p r =
    ((stamped clock p r, None),
     mkRepo (<[HN p := stamped clock p r]> (patients r)) (S (S (ticks r)))).
Proof.
  intros Hq. follow_lookup Hq.
Qed.

Lemma sameData_stamped (p : Patient) (r : MockPatientRepository) :
  sameData (stamped clock p r) p.
Proof. repeat split. Qed.

Lemma Update_missing (p : Patient) (r : MockPatientRepository) :
  patients r !! HN p = None ->
  Update clock p r = ((p, Some (UpdateNotFound (HN p))), r).
Proof.
  intros Hq. follow_lookup Hq.
Qed.

Lemma Update_found (p existing : Patient) (r : MockPatientRepository) :
  patients r !! HN p = Some existing ->
  Update clock p r =
    let stored :=
      mkPatient (HN existing) (FullName p) (Gender p) (Nickname p)
                (Phone p) (Age p) (DateOfBirth p) (Photo p)
                (CreatedAt existing) (clock (ticks r)) in
    ((setUpdatedAt (clock (ticks r)) (setCreatedAt (CreatedAt existing) p),
      None),
     mkRepo (<[HN p := stored]> (patients r)) (S (ticks r))).
Proof.
  intros Hq. follow_lookup Hq.
Qed.

Lemma Delete_missing (id : Z) (r : MockPatientRepository) :
  patients r !! hnString id = None ->
  Delete id r = (Some (NotFound (hnString id)), r).
Proof.
  intros Hq. follow_lookup Hq.
Qed.

Lemma Delete_found (id : Z) (q : Patient) (r : MockPatientRepository) :
  patients r !! hnString id = Some q ->
  Delete id r = (None, mkRepo (delete (hnString id) (patients r)) (ticks r)).
Proof.
  intros Hq. follow_lookup Hq.
Qed.

Lemma GetByID_lookup (id : Z) (r : MockPatientRepository) :
  GetByID id r =
    match patients r !! hnString id with
    | Some patient => Ok patient
    | None => Err (NotFound (hnString id))
    end.
Proof. unfold GetByID. now destruct (patients r !! hnString id). Qed.

Lemma elem_of_records (p : Patient) (r : MockPatientRepository) :
  p ∈ records r <-> exists k, patients r !! k = Some p.
Proof.
  unfold records. rewrite list_elem_of_fmap. split.
  - intros [[k q] [-> Hin]]. exists k. now apply elem_of_map_to_list in Hin.
  - intros [k Hk]. exists (k, p). split; [reflexivity|].
    now apply elem_of_map_to_list.
Qed.

Lemma GetAll_returns_elem (r : MockPatientRepository) (l : list Patient)
      (p : Patient) :
  GetAll_returns r l -> (p ∈ l <-> exists k, patients r !! k = Some p).
Proof. intros [Hperm _]. rewrite Hperm. apply elem_of_records. Qed.

#[local] Instance newestFirst_total : Total newestFirst.
Proof. intros a b. unfold newestFirst. lia. Qed.

#[local] Instance newestFirst_trans : Transitive newestFirst.
Proof. intros a b c. unfold newestFirst. lia. Qed.

(** [GetAll] never fails: the computed list is one of the lists the
    method can return. *)
Lemma GetAll_returns_GetAll (r : MockPatientRepository) :
  GetAll_returns r (GetAll r).
Proof.
  split; [apply merge_sort_Permutation|].
  apply StronglySorted_merge_sort; apply _.
Qed.

End StoreFacts.

(** ** Invariants of the store *)
Section StoreInvariants.
Import Store.
Variable clock : nat -> Time.

Lemma keyed_call (c : Call) (r : MockPatientRepository) :
  keyed r -> keyed (call clock c r).
Proof.
  intros Hk. destruct c as [| id | p | p | id]; cbn [call]; try exact Hk.
  - destruct (patients r !! HN p) as [q|] eqn:Hq.
    + now rewrite (Create_exists clock p q r Hq).
    + rewrite (Create_fresh clock p r Hq). intros k x. cbn [snd patients].
      rewrite lookup_insert. case_decide as Hkey.
      * intros [= <-]. exact Hkey.
      * apply Hk.
  - destruct (patients r !! HN p) as [q|] eqn:Hq.
    + rewrite (Update_found clock p q r Hq). intros k x. cbn [snd patients].
      rewrite lookup_insert. case_decide as Hkey.
      * intros [= <-]. cbn [HN]. rewrite (Hk _ _ Hq). exact Hkey.
      * apply Hk.
    + now rewrite (Update_missing clock p r Hq).
  - destruct (patients r !! hnString id) as [q|] eqn:Hq.
    + rewrite (Delete_found id q r Hq). intros k x. cbn [snd patients].
      intros [_ Hx]%lookup_delete_Some. now apply Hk.
    + now rewrite (Delete_missing id r Hq).
Qed.

Lemma reachable_keyed (r : MockPatientRepository) :
  reachable clock r -> keyed r.
Proof.
  induction 1 as [n | c r _ IH].
  - intros k p. cbn [patients]. now rewrite lookup_empty.
  - now apply keyed_call.
Qed.

Hypothesis clock_monotone : monotone clock.

Lemma timely_call (c : Call) (r : MockPatientRepository) :
  timely clock r -> timely clock (call clock c r).
Proof.
  intros Ht. destruct c as [| id | p | p | id]; cbn [call]; try exact Ht.
  - destruct (patients r !! HN p) as [q|] eqn:Hq.
    + now rewrite (Create_exists clock p q r Hq).
    + rewrite (Create_fresh clock p r Hq). intros k x.
      cbn [snd patients ticks].
      pose proof (clock_monotone (ticks r) (S (ticks r)) ltac:(lia)).
      pose proof (clock_monotone (S (ticks r)) (S (S (ticks r))) ltac:(lia)).
      rewrite lookup_insert. case_decide as Hkey.
      * intros [= <-]. cbn. lia.
      * intros Hx. destruct (Ht _ _ Hx). lia.
  - destruct (patients r !! HN p) as [q|] eqn:Hq.
    + rewrite (Update_found clock p q r Hq). intros k x.
      cbn [snd patients ticks].
      pose proof (clock_monotone (ticks r) (S (ticks r)) ltac:(lia)).
      rewrite lookup_insert. case_decide as Hkey.
      * intros [= <-]. cbn. destruct (Ht _ _ Hq). lia.
      * intros Hx. destruct (Ht _ _ Hx). lia.
    + now rewrite (Update_missing clock p r Hq).
  - destruct (patients r !! hnString id) as [q|] eqn:Hq.
    + rewrite (Delete_found id q r Hq). intros k x. cbn [snd patients ticks].
      intros [_ Hx]%lookup_delete_Some. exact (Ht _ _ Hx).
    + now rewrite (Delete_missing id r Hq).
Qed.

Lemma reachable_timely (r : MockPatientRepository) :
  reachable clock r -> timely clock r.
Proof.
  induction 1 as [n | c r _ IH].
  - intros k p. cbn [patients]. now rewrite lookup_empty.
  - now apply timely_call.
Qed.

(** One call leaves a record that stays in the store with its hospital
    number and creation time, and with an update time no earlier than
    before. *)
Lemma call_keeps_record (c : Call) (r : MockPatientRepository)
      (k : string) (p p' : Patient) :
  timely clock r ->
  patients r !! k = Some p ->
  patients (call clock c r) !! k = Some p' ->
  HN p' = HN p /\ CreatedAt p' = CreatedAt p /\
  (UpdatedAt p <= UpdatedAt p')%Z.
Proof.
  intros Ht Hp.
  assert (Hsame : patients r !! k = Some p' ->
                  HN p' = HN p /\ CreatedAt p' = CreatedAt p /\
                  (UpdatedAt p <= UpdatedAt p')%Z).
  { intros Hp'. assert (p' = p) as -> by congruence. repeat split; lia. }
  destruct c as [| id | q | q | id]; cbn [call]; try exact Hsame.
  - destruct (patients r !! HN q) as [e|] eqn:Hq.
    + now rewrite (Create_exists clock q e r Hq).
    + rewrite (Create_fresh clock q r Hq). cbn [snd patients].
      rewrite lookup_insert_ne by congruence. exact Hsame.
  - destruct (patients r !! HN q) as [e|] eqn:Hq.
    + rewrite (Update_found clock q e r Hq). cbn [snd patients].
      rewrite lookup_insert. case_decide as Hkey; [|exact Hsame].
      intros [= <-]. cbn. subst k.
      assert (e = p) as -> by congruence.
      destruct (Ht _ _ Hp). repeat split; lia.
    + now rewrite (Update_missing clock q r Hq).
  - destruct (patients r !! hnString id) as [e|] eqn:Hq.
    + rewrite (Delete_found id e r Hq). cbn [snd patients].
      intros [_ Hx]%lookup_delete_Some. now apply Hsame.
    + now rewrite (Delete_missing id r Hq).
Qed.

Lemma run_keeps_record (cs : list Call) :
  forall (r : MockPatientRepository) (k : string) (p : Patient),
    timely clock r ->
    patients r !! k = Some p ->
    Forall (fun r' => is_Some (patients r' !! k)) (trace clock cs r) ->
    exists p', patients (run clock cs r) !! k = Some p' /\
               HN p' = HN p /\ CreatedAt p' = CreatedAt p /\
               (UpdatedAt p <= UpdatedAt p')%Z.
Proof.
  induction cs as [|c cs IH]; intros r k p Ht Hp Hlive.
  - exists p. repeat split; [exact Hp | lia].
  - cbn [trace] in Hlive. apply Forall_cons in Hlive as [[p1 Hp1] Hlive].
    destruct (call_keeps_record c r k p p1 Ht Hp Hp1) as (Hh & Hc & Hu).
    destruct (IH (call clock c r) k p1 (timely_call c r Ht) Hp1 Hlive)
      as (p' & Hp' & Hh' & Hc' & Hu').
    exists p'. cbn [run fold_left]. split; [exact Hp'|].
    repeat split; try congruence. lia.
Qed.

End StoreInvariants.

Lemma tickClock_monotone : Store.monotone Store.tickClock.
Proof. intros i j Hij. unfold Store.tickClock. lia. Qed.

Lemma reachable_run (clock : nat -> Store.Time) (cs : list Store.Call) :
  forall r, Store.reachable clock r -> Store.reachable clock (Store.run clock cs r).
Proof.
  induction cs as [|c cs IH]; intros r Hr; [exact Hr|].
  apply IH. now constructor.
Qed.

Lemma reachable_NewMockPatientRepository (clock : nat -> Store.Time) (n : nat) :
  Store.reachable clock (Store.NewMockPatientRepository clock n).
Proof.
  change (Store.NewMockPatientRepository clock n)
    with (Store.run clock (map Store.CallCreate Store.samplePatients)
                    (Store.mkRepo ∅ n)).
  apply reachable_run. constructor.
Qed.

(** ** The specification's statements about the store *)

(** C1. For every store state and every record whose hn is already present
    among the live records, create returns AlreadyExists and leaves the
    store completely unchanged: the record held under that hn is not
    overwritten, no timestamp changes, and what list can return is the
    same. *)
Theorem Create_existing_hn (clock : nat -> Store.Time)
        (r : Store.MockPatientRepository) (p existing : Store.Patient) :
  Store.patients r !! Store.HN p = Some existing ->
  fst (Store.Create clock p r)
    = (p, Some (Store.AlreadyExists (Store.HN p))) /\
  snd (Store.Create clock p r) = r /\
  Store.patients (snd (Store.Create clock p r)) !! Store.HN p = Some existing /\
  (forall l, Store.GetAll_returns (snd (Store.Create clock p r)) l
             <-> Store.GetAll_returns r l).
Proof.
  intros He. rewrite (Create_exists clock p existing r He). cbn [fst snd].
  split; [reflexivity|]. split; [reflexivity|]. split; [exact He|].
  intros l. reflexivity.
Qed.

Lemma Create_existing_hn_witness :
  let r := Store.NewMockPatientRepository Store.tickClock 0 in
  let p := Store.somchaiRequest "HN000001" in
  is_Some (Store.patients r !! Store.HN p) /\
  snd (Store.Create Store.tickClock p r) = r.
Proof.
  intros r p.
  assert (He : exists e, Store.patients r !! Store.HN p = Some e)
    by (eexists; vm_compute; reflexivity).
  destruct He as [e He]. split; [now exists e|].
  apply (Create_existing_hn Store.tickClock r p e He).
Defined.

(** C2. For every store state and every record with a canonical hn not yet
    present, create succeeds, after which get addressed by the record's hn
    returns a record equal to it in all fields but the store-assigned
    createdAt and updatedAt, and every list that list() can return includes
    that record. *)
Theorem Create_then_GetByID_GetAll (clock : nat -> Store.Time)
        (r : Store.MockPatientRepository) (p : Store.Patient) :
  Form.hnPattern (Store.HN p) = true ->
  Store.patients r !! Store.HN p = None ->
  let r' := snd (Store.Create clock p r) in
  exists stored,
    fst (Store.Create clock p r) = (stored, None) /\
    Store.hnString (Store.hnNumber (Store.HN p)) = Store.HN p /\
    Store.GetByID (Store.hnNumber (Store.HN p)) r' = Store.Ok stored /\
    Store.sameData stored p /\
    (forall l, Store.GetAll_returns r' l -> stored ∈ l) /\
    stored ∈ Store.GetAll r'.
Proof.
  intros Hcanon Hfresh r'. subst r'.
  destruct (hnString_hnNumber _ Hcanon) as [_ Hhn].
  rewrite (Create_fresh clock p r Hfresh). cbn [fst snd].
  set (stored := Store.stamped clock p r).
  set (r' := Store.mkRepo _ _).
  assert (Hlook : Store.patients r' !! Store.HN p = Some stored)
    by (subst r'; cbn [Store.patients]; apply lookup_insert_eq).
  assert (Hall : forall l, Store.GetAll_returns r' l -> stored ∈ l).
  { intros l Hl. apply (GetAll_returns_elem r' l stored Hl).
    now exists (Store.HN p). }
  exists stored. split; [reflexivity|]. split; [exact Hhn|].
  split; [rewrite GetByID_lookup, Hhn, Hlook; reflexivity|].
  split; [apply sameData_stamped|]. split; [exact Hall|].
  apply Hall, GetAll_returns_GetAll.
Qed.

Lemma Create_then_GetByID_GetAll_witness :
  let r := Store.NewMockPatientRepository Store.tickClock 0 in
  let p := Store.somchaiRequest "HN000004" in
  Form.hnPattern (Store.HN p) = true /\
  Store.patients r !! Store.HN p = None /\
  exists stored,
    Store.GetByID 4 (snd (Store.Create Store.tickClock p r)) = Store.Ok stored /\
    Store.sameData stored p.
Proof.
  intros r p.
  assert (Hcanon : Form.hnPattern (Store.HN p) = true) by reflexivity.
  assert (Hfresh : Store.patients r !! Store.HN p = None)
    by (vm_compute; reflexivity).
  split; [exact Hcanon|]. split; [exact Hfresh|].
  destruct (Create_then_GetByID_GetAll Store.tickClock r p Hcanon Hfresh)
    as (stored & _ & _ & Hget & Hsame & _).
  exists stored. split; [exact Hget | exact Hsame].
Defined.

(** C3. For every store state (its records filed under their own hn) and
    every hn, addressed by its integer as the store's methods take it:
    delete succeeds exactly when a record is held under the hn; after it
    succeeds, get of that hn returns NotFound and no list that list() can
    return contains a record with that hn; and delete addressed at an hn
    with no live record returns NotFound and changes nothing. *)
Theorem Delete_then_gone (r : Store.MockPatientRepository) (id : Z) :
  Store.keyed r ->
  let r' := snd (Store.Delete id r) in
  (fst (Store.Delete id r) = None
   <-> is_Some (Store.patients r !! Store.hnString id)) /\
  (fst (Store.Delete id r) = None ->
   Store.GetByID id r' = Store.Err (Store.NotFound (Store.hnString id)) /\
   forall l, Store.GetAll_returns r' l ->
             forall q, q ∈ l -> Store.HN q <> Store.hnString id) /\
  (Store.patients r !! Store.hnString id = None ->
   Store.Delete id r
   = (Some (Store.NotFound (Store.hnString id)), r)).
Proof.
  intros Hk r'. subst r'.
  destruct (Store.patients r !! Store.hnString id) as [e|] eqn:He.
  - rewrite (Delete_found id e r He). cbn [fst snd].
    split; [split; [eauto | reflexivity]|].
    split; [|discriminate]. intros _.
    split; [rewrite GetByID_lookup; cbn [Store.patients];
            now rewrite lookup_delete_eq|].
    intros l Hl q Hq Hhn.
    apply (GetAll_returns_elem _ l q Hl) in Hq as [k Hq].
    cbn [Store.patients] in Hq. apply lookup_delete_Some in Hq as [Hne Hq].
    apply Hk in Hq. congruence.
  - rewrite (Delete_missing id r He). cbn [fst snd].
    split; [split; [discriminate | intros [? ?]; discriminate]|].
    split; [discriminate | reflexivity].
Qed.

Lemma Delete_then_gone_witness :
  let r := Store.NewMockPatientRepository Store.tickClock 0 in
  Store.keyed r /\
  fst (Store.Delete 1 r) = None /\
  Store.GetByID 1 (snd (Store.Delete 1 r))
  = Store.Err (Store.NotFound "HN000001").
Proof.
  intros r.
  assert (Hk : Store.keyed r)
    by apply (reachable_keyed Store.tickClock),
             reachable_NewMockPatientRepository.
  assert (Hok : fst (Store.Delete 1 r) = None) by (vm_compute; reflexivity).
  split; [exact Hk|]. split; [exact Hok|].
  destruct (Delete_then_gone r 1 Hk) as (_ & Hgone & _).
  apply (Hgone Hok).
Defined.


(** C8. With a clock that never runs backwards, for every live record and
    every sequence of store calls during which it stays live: its hn and
    createdAt never change and its updatedAt never decreases. Every
    successful mutation sets updatedAt: create to a clock reading taken
    during the call (and createdAt to the reading before it), update to the
    current time; update preserves hn and createdAt and replaces every
    mutable field. *)
Theorem timestamps_discipline (clock : nat -> Store.Time)
        (r : Store.MockPatientRepository) :
  Store.monotone clock ->
  Store.timely clock r ->
  (forall cs k p,
      Store.patients r !! k = Some p ->
      Forall (fun r' => is_Some (Store.patients r' !! k))
             (Store.trace clock cs r) ->
      exists p',
        Store.patients (Store.run clock cs r) !! k = Some p' /\
        Store.HN p' = Store.HN p /\
        Store.CreatedAt p' = Store.CreatedAt p /\
        (Store.UpdatedAt p <= Store.UpdatedAt p')%Z) /\
  (forall p,
      Store.patients r !! Store.HN p = None ->
      exists stored,
        fst (Store.Create clock p r) = (stored, None) /\
        Store.patients (snd (Store.Create clock p r)) !! Store.HN p
        = Some stored /\
        Store.CreatedAt stored = clock (Store.ticks r) /\
        Store.UpdatedAt stored = clock (S (Store.ticks r)) /\
        (Store.CreatedAt stored <= Store.UpdatedAt stored)%Z) /\
  (forall p existing,
      Store.patients r !! Store.HN p = Some existing ->
      exists stored,
        fst (Store.Update clock p r)
        = (Store.setUpdatedAt (Store.UpdatedAt stored)
             (Store.setCreatedAt (Store.CreatedAt stored) p), None) /\
        Store.patients (snd (Store.Update clock p r)) !! Store.HN p
        = Some stored /\
        Store.HN stored = Store.HN existing /\
        Store.CreatedAt stored = Store.CreatedAt existing /\
        Store.UpdatedAt stored = clock (Store.ticks r) /\
        (Store.UpdatedAt existing <= Store.UpdatedAt stored)%Z /\
        Store.FullName stored = Store.FullName p /\
        Store.Gender stored = Store.Gender p /\
        Store.Nickname stored = Store.Nickname p /\
        Store.Phone stored = Store.Phone p /\
        Store.Age stored = Store.Age p /\
        Store.DateOfBirth stored = Store.DateOfBirth p /\
        Store.Photo stored = Store.Photo p).
Proof.
  intros Hmono Ht. split; [|split].
  - intros cs k p Hp Hlive.
    apply (run_keeps_record clock Hmono cs r k p Ht Hp Hlive).
  - intros p Hfresh. exists (Store.stamped clock p r).
    rewrite (Create_fresh clock p r Hfresh). cbn [fst snd Store.patients].
    split; [reflexivity|]. split; [apply lookup_insert_eq|].
    split; [reflexivity|]. split; [reflexivity|].
    cbn. apply Hmono. lia.
  - intros p existing He.
    rewrite (Update_found clock p existing r He). cbv zeta.
    cbn [fst snd Store.patients]. eexists.
    split; [|split; [apply lookup_insert_eq|]]; cbn; [reflexivity|].
    destruct (Ht _ _ He) as [_ Hle].
    repeat split; try reflexivity. exact Hle.
Qed.

Lemma timestamps_discipline_witness :
  let r := Store.NewMockPatientRepository Store.tickClock 0 in
  let edit := Store.somchaiRequest "HN000002" in
  Store.monotone Store.tickClock /\
  Store.timely Store.tickClock r /\
  exists p',
    Store.patients
      (Store.run Store.tickClock
         [Store.CallUpdate edit; Store.CallDelete 1; Store.CallGetAll] r)
      !! "HN000002" = Some p' /\
    Store.CreatedAt p' = 2%Z /\ (3 <= Store.UpdatedAt p')%Z.
Proof.
  intros r edit.
  assert (Ht : Store.timely Store.tickClock r)
    by apply (reachable_timely Store.tickClock tickClock_monotone),
             reachable_NewMockPatientRepository.
  split; [exact tickClock_monotone|]. split; [exact Ht|].
  destruct (timestamps_discipline Store.tickClock r tickClock_monotone Ht)
    as (Hrun & _ & _).
  destruct (Store.patients r !! "HN000002") as [p|] eqn:Hp;
    [|vm_compute in Hp; discriminate].
  destruct (Hrun [Store.CallUpdate edit; Store.CallDelete 1; Store.CallGetAll]
                 "HN000002" p Hp) as (p' & Hp' & _ & Hc & Hu).
  { repeat constructor; vm_compute; eauto. }
  exists p'. split; [exact Hp'|].
  assert (Hpe : Store.CreatedAt p = 2%Z /\ Store.UpdatedAt p = 3%Z)
    by (vm_compute in Hp; injection Hp as <-; split; reflexivity).
  destruct Hpe as [Hpc Hpu]. split; [congruence | lia].
Defined.

(** C5 as the specification words it fails on the store: a create request
    carrying hn HN1 is stored under HN1 as it came, nothing is stored under
    HN000001, and get addressed by HN000001 returns NotFound. *)
Lemma Create_HN1_not_normalized :
  let r := Store.mkRepo ∅ 0 in
  let r' := snd (Store.Create Store.tickClock (Store.somchaiRequest "HN1") r) in
  snd (fst (Store.Create Store.tickClock (Store.somchaiRequest "HN1") r)) = None /\
  Store.HN <$> Store.patients r' !! "HN1" = Some "HN1" /\
  Store.patients r' !! "HN000001" = None /\
  Store.hnString 1 = "HN000001" /\
  Store.GetByID 1 r' = Store.Err (Store.NotFound "HN000001").
Proof. vm_compute. repeat split; reflexivity. Qed.

(** C5, amended. The store keeps the hn of a create request as it came: a
    request carrying HN1, no record being held under HN1, succeeds and is
    stored under HN1. It is the form's parsing that turns HN1 into HN000001
    before a request is sent; a create request carrying that normalized hn,
    no record being held under it, succeeds with stored hn HN000001, and a
    subsequent get addressed by HN000001 returns that same record. *)
Theorem Create_HN1_after_form (clock : nat -> Store.Time)
        (r : Store.MockPatientRepository) (p q : Store.Patient) :
  Store.HN p = "HN1" ->
  Form.parseHN (Store.HN p) = Some (Store.HN q) ->
  (Store.patients r !! Store.HN p = None ->
   exists stored,
     fst (Store.Create clock p r) = (stored, None) /\
     Store.HN stored = "HN1" /\
     Store.patients (snd (Store.Create clock p r)) !! "HN1" = Some stored) /\
  Store.HN q = "HN000001" /\
  (Store.patients r !! Store.HN q = None ->
   exists stored,
     fst (Store.Create clock q r) = (stored, None) /\
     Store.HN stored = "HN000001" /\
     Store.sameData stored q /\
     Store.hnString 1 = "HN000001" /\
     Store.GetByID 1 (snd (Store.Create clock q r)) = Store.Ok stored).
Proof.
  intros Hp Hparse. rewrite Hp in Hparse.
  assert (Hform : Form.parseHN "HN1" = Some "HN000001") by reflexivity.
  assert (Hq : Store.HN q = "HN000001") by congruence.
  split; [|split; [exact Hq|]].
  - intros Hfresh. exists (Store.stamped clock p r).
    rewrite (Create_fresh clock p r Hfresh). cbn [fst snd Store.patients].
    split; [reflexivity|]. split; [exact Hp|].
    rewrite Hp. apply lookup_insert_eq.
  - intros Hfresh. exists (Store.stamped clock q r).
    rewrite (Create_fresh clock q r Hfresh). cbn [fst snd].
    split; [reflexivity|]. split; [exact Hq|].
    split; [apply sameData_stamped|]. split; [reflexivity|].
    rewrite GetByID_lookup. cbn [Store.patients].
    change (Store.hnString 1) with "HN000001". rewrite <- Hq.
    now rewrite lookup_insert_eq.
Qed.

Lemma Create_HN1_after_form_witness :
  let r := Store.mkRepo ∅ 0 in
  let p := Store.somchaiRequest "HN1" in
  let q := Store.somchaiRequest "HN000001" in
  Store.HN p = "HN1" /\
  Form.parseHN (Store.HN p) = Some (Store.HN q) /\
  exists stored,
    Store.GetByID 1 (snd (Store.Create Store.tickClock q r)) = Store.Ok stored /\
    Store.sameData stored q.
Proof.
  intros r p q.
  assert (Hp : Store.HN p = "HN1") by reflexivity.
  assert (Hparse : Form.parseHN (Store.HN p) = Some (Store.HN q))
    by reflexivity.
  split; [exact Hp|]. split; [exact Hparse|].
  destruct (Create_HN1_after_form Store.tickClock r p q Hp Hparse)
    as (_ & _ & Hcreate).
  destruct Hcreate as (stored & _ & _ & Hsame & _ & Hget);
    [vm_compute; reflexivity|].
  exists stored. split; [exact Hget | exact Hsame].
Defined.

(** C10 as worded fails on the store: HN1234567 is not a canonical hospital
    number, yet a record created under it is returned by get(1234567) and
    removed by delete(1234567). *)
Lemma GetByID_reaches_seven_digit_hn :
  let r := Store.mkRepo ∅ 0 in
  let p := Store.somchaiRequest "HN1234567" in
  let r' := snd (Store.Create Store.tickClock p r) in
  Form.hnPattern (Store.HN p) = false /\
  Store.hnString 1234567 = "HN1234567" /\
  Store.GetByID 1234567 r' = Store.Ok (Store.stamped Store.tickClock p r) /\
  fst (Store.Delete 1234567 r') = None /\
  Store.patients (snd (Store.Delete 1234567 r')) !! "HN1234567" = None.
Proof. vm_compute. repeat split; reflexivity. Qed.

(** C10, amended. For every integer surrogate n, get and delete address
    exactly the key HN followed by n formatted with %06d, which has 8
    characters or more. Create stores the caller's hn as it came, so a record
    created under an hn that is the key of no integer (for example HN1, as
    every hn shorter than 8 characters) is never returned by get(n) and
    never removed by delete(n), whatever n: both answer as they did before
    the record was created, hence with NotFound when no other record is held
    under the key of n. *)
Theorem unaddressed_hn_never_reached (clock : nat -> Store.Time)
        (r : Store.MockPatientRepository) (p : Store.Patient) :
  Store.keyed r ->
  (forall n, Store.hnString n <> Store.HN p) ->
  Store.patients r !! Store.HN p = None ->
  let r' := snd (Store.Create clock p r) in
  (forall n r0,
      Store.GetByID n r0
      = match Store.patients r0 !! Store.hnString n with
        | Some patient => Store.Ok patient
        | None => Store.Err (Store.NotFound (Store.hnString n))
        end /\
      Store.Delete n r0
      = match Store.patients r0 !! Store.hnString n with
        | Some _ =>
            (None, Store.mkRepo (delete (Store.hnString n) (Store.patients r0))
                                (Store.ticks r0))
        | None => (Some (Store.NotFound (Store.hnString n)), r0)
        end /\
      Store.hnString n = "HN" ++ Store.fmt06d n /\
      (8 <= String.length (Store.hnString n))%nat) /\
  (forall hn, (String.length hn < 8)%nat -> forall n, Store.hnString n <> hn) /\
  exists stored,
    fst (Store.Create clock p r) = (stored, None) /\
    Store.HN stored = Store.HN p /\
    Store.patients r' !! Store.HN p = Some stored /\
    forall n,
      Store.GetByID n r' = Store.GetByID n r /\
      (forall q, Store.GetByID n r' = Store.Ok q -> Store.HN q <> Store.HN p) /\
      fst (Store.Delete n r') = fst (Store.Delete n r) /\
      Store.patients (snd (Store.Delete n r')) !! Store.HN p = Some stored /\
      (Store.patients r !! Store.hnString n = None ->
       Store.GetByID n r' = Store.Err (Store.NotFound (Store.hnString n)) /\
       Store.Delete n r' = (Some (Store.NotFound (Store.hnString n)), r')).
Proof.
  intros Hk Hne Hfresh r'. subst r'. split; [|split].
  - intros n r0. split; [apply GetByID_lookup|].
    split; [|split; [reflexivity | apply length_hnString]].
    destruct (Store.patients r0 !! Store.hnString n) as [e|] eqn:He.
    + apply (Delete_found n e r0 He).
    + apply (Delete_missing n r0 He).
  - intros hn Hshort n Heq. pose proof (length_hnString n) as Hlen.
    rewrite Heq in Hlen. lia.
  - exists (Store.stamped clock p r).
    rewrite (Create_fresh clock p r Hfresh). cbn [fst snd].
    set (stored := Store.stamped clock p r).
    set (r' := Store.mkRepo _ _).
    assert (Hstored : Store.patients r' !! Store.HN p = Some stored)
      by (subst r'; cbn [Store.patients]; apply lookup_insert_eq).
    assert (Hother : forall n,
               Store.patients r' !! Store.hnString n
               = Store.patients r !! Store.hnString n).
    { intros n. subst r'. cbn [Store.patients]. apply lookup_insert_ne.
      intros Heq. now apply (Hne n). }
    split; [reflexivity|]. split; [reflexivity|]. split; [exact Hstored|].
    intros n.
    assert (Hget : Store.GetByID n r' = Store.GetByID n r)
      by (rewrite !GetByID_lookup, Hother; reflexivity).
    split; [exact Hget|]. split; [|split; [|split]].
    + intros q. rewrite Hget, GetByID_lookup.
      destruct (Store.patients r !! Store.hnString n) as [e|] eqn:He;
        [|discriminate].
      intros [= <-]. rewrite (Hk _ _ He). apply Hne.
    + destruct (Store.patients r !! Store.hnString n) as [e|] eqn:He.
      * rewrite (Delete_found n e r He).
        rewrite (Delete_found n e r'); [reflexivity|].
        now rewrite Hother.
      * rewrite (Delete_missing n r He).
        rewrite (Delete_missing n r'); [reflexivity|].
        now rewrite Hother.
    + destruct (Store.patients r' !! Store.hnString n) as [e|] eqn:He.
      * rewrite (Delete_found n e r' He). cbn [snd Store.patients].
        rewrite lookup_delete_ne by apply Hne. exact Hstored.
      * rewrite (Delete_missing n r' He). exact Hstored.
    + intros Hnone. split.
      * rewrite Hget, GetByID_lookup, Hnone. reflexivity.
      * apply Delete_missing. now rewrite Hother.
Qed.

Lemma unaddressed_hn_never_reached_witness :
  let r := Store.NewMockPatientRepository Store.tickClock 0 in
  let p := Store.somchaiRequest "HN1" in
  Store.keyed r /\
  (forall n, Store.hnString n <> Store.HN p) /\
  Store.patients r !! Store.HN p = None /\
  forall n,
    Store.GetByID n (snd (Store.Create Store.tickClock p r))
    = Store.GetByID n r.
Proof.
  intros r p.
  assert (Hk : Store.keyed r)
    by apply (reachable_keyed Store.tickClock),
             reachable_NewMockPatientRepository.
  assert (Hne : forall n, Store.hnString n <> Store.HN p).
  { intros n Heq. pose proof (length_hnString n) as Hlen.
    rewrite Heq in Hlen. vm_compute in Hlen. lia. }
  assert (Hfresh : Store.patients r !! Store.HN p = None)
    by (vm_compute; reflexivity).
  split; [exact Hk|]. split; [exact Hne|]. split; [exact Hfresh|].
  destruct (unaddressed_hn_never_reached Store.tickClock r p Hk Hne Hfresh)
    as (_ & _ & stored & _ & _ & _ & Hall).
  intros n. apply (Hall n).
Defined.

(** ** Create calls taken in any serial order

    The mutex lets one method run at a time, so the calls of concurrent
    callers take effect in some order; these are the facts that hold for
    every order. *)
Section SerialCreates.
Import Store.
Variable clock : nat -> Time.

Lemma Create_keeps_records (p : Patient) (r : MockPatientRepository)
      (k : string) (x : Patient) :
  patients r !! k = Some x ->
  patients (snd (Create clock p r)) !! k = Some x.
Proof.
  intros Hx. destruct (patients r !! HN p) as [e|] eqn:He.
  - now rewrite (Create_exists clock p e r He).
  - rewrite (Create_fresh clock p r He). cbn [snd patients].
    rewrite lookup_insert_ne by congruence. exact Hx.
Qed.

Lemma Create_other_key (p : Patient) (r : MockPatientRepository)
      (k : string) :
  k <> HN p ->
  patients (snd (Create clock p r)) !! k = patients r !! k.
Proof.
  intros Hk. destruct (patients r !! HN p) as [e|] eqn:He.
  - now rewrite (Create_exists clock p e r He).
  - rewrite (Create_fresh clock p r He). cbn [snd patients].
    now rewrite lookup_insert_ne by congruence.
Qed.

Lemma createAll_keeps_records (ps : list Patient) :
  forall r k x,
    patients r !! k = Some x ->
    patients (snd (createAll clock ps r)) !! k = Some x.
Proof.
  induction ps as [|p ps IH]; intros r k x Hx; [exact Hx|].
  cbn [createAll snd]. apply IH. now apply Create_keeps_records.
Qed.

(** X8. Create calls with pairwise distinct hospital numbers, none of them
    taken, made one after the other in any order: every call succeeds and
    every record is held under its hn afterwards, with the data it came
    with, and is in every list GetAll can return. *)
Lemma createAll_distinct (ps : list Patient) :
  forall r,
    NoDup (HN <$> ps) ->
    (forall p, p ∈ ps -> patients r !! HN p = None) ->
    Forall (fun e => e = None) (fst (createAll clock ps r)) /\
    forall p, p ∈ ps ->
      exists stored,
        patients (snd (createAll clock ps r)) !! HN p = Some stored /\
        sameData stored p /\
        forall l, GetAll_returns (snd (createAll clock ps r)) l -> stored ∈ l.
Proof.
  induction ps as [|p ps IH]; intros r Hnd Hfree.
  - split; [constructor|]. intros p Hp. inversion Hp.
  - rewrite fmap_cons in Hnd. apply NoDup_cons in Hnd as [Hnotin Hnd].
    assert (Hp : patients r !! HN p = None) by (apply Hfree; left).
    destruct (IH (snd (Create clock p r)) Hnd) as [Hok Hheld].
    { intros q Hq. rewrite Create_other_key; [apply Hfree; now right|].
      intros Heq. apply Hnotin. rewrite <- Heq.
      apply list_elem_of_fmap. now exists q. }
    cbn [createAll fst snd]. split.
    + constructor; [|exact Hok]. now rewrite (Create_fresh clock p r Hp).
    + assert (Hlisted : forall stored q,
                patients (snd (createAll clock ps (snd (Create clock p r))))
                  !! HN q = Some stored ->
                forall l, GetAll_returns
                            (snd (createAll clock ps (snd (Create clock p r)))) l ->
                          stored ∈ l).
      { intros stored q Hs l Hl. apply (GetAll_returns_elem _ l stored Hl).
        now exists (HN q). }
      intros q [-> | Hq]%elem_of_cons.
      * exists (stamped clock p r).
        assert (Hs : patients (snd (createAll clock ps (snd (Create clock p r))))
                       !! HN p = Some (stamped clock p r)).
        { apply createAll_keeps_records.
          rewrite (Create_fresh clock p r Hp). cbn [snd patients].
          apply lookup_insert_eq. }
        split; [exact Hs|]. split; [apply sameData_stamped|].
        apply (Hlisted _ p Hs).
      * apply (Hheld q Hq).
Qed.

Lemma createAll_taken (ps : list Patient) (h : string) :
  forall r,
    is_Some (patients r !! h) ->
    Forall (fun p => HN p = h) ps ->
    fst (createAll clock ps r) = (fun _ => Some (AlreadyExists h)) <$> ps.
Proof.
  induction ps as [|p ps IH]; intros r [e He] Hall; [reflexivity|].
  apply Forall_cons in Hall as [Hp Hall]. subst h.
  cbn [createAll fst]. rewrite fmap_cons.
  rewrite (Create_exists clock p e r He). cbn [fst snd].
  f_equal. apply IH; [eauto | exact Hall].
Qed.

(** X9. Create calls that all carry one hospital number, not taken, made
    one after the other: the call that comes first succeeds and every other
    one returns the already-exists error. *)
Lemma createAll_same (p : Patient) (ps : list Patient)
      (r : MockPatientRepository) :
  patients r !! HN p = None ->
  Forall (fun q => HN q = HN p) ps ->
  fst (createAll clock (p :: ps) r)
  = None :: ((fun _ => Some (AlreadyExists (HN p))) <$> ps).
Proof.
  intros Hp Hall. cbn [createAll fst]. f_equal.
  - now rewrite (Create_fresh clock p r Hp).
  - apply createAll_taken; [|exact Hall].
    rewrite (Create_fresh clock p r Hp). cbn [snd patients].
    rewrite lookup_insert_eq. eauto.
Qed.

End SerialCreates.


(** * Further properties of the store *)
Section StoreExtras.
Import Store Calls.
Variable clock : nat -> Time.

Lemma keyed_records_hn (r : MockPatientRepository) :
  keyed r -> HN <$> records r = (map_to_list (patients r)).*1.
Proof.
  intros Hk. unfold records. rewrite <- list_fmap_compose.
  apply list_fmap_ext. intros i [k p] Hin. cbn.
  apply list_elem_of_lookup_2, elem_of_map_to_list in Hin.
  now apply Hk.
Qed.

Lemma call_other_key (c : Call) (r : MockPatientRepository) (k : string) :
  target c <> Some k -> patients (call clock c r) !! k = patients r !! k.
Proof.
  intros Hk. destruct c as [| id | p | p | id]; cbn [call target] in *;
    try reflexivity.
  - apply Create_other_key. congruence.
  - destruct (patients r !! HN p) as [e|] eqn:He.
    + rewrite (Update_found clock p e r He). cbn [snd patients].
      apply lookup_insert_ne. congruence.
    + now rewrite (Update_missing clock p r He).
  - destruct (patients r !! hnString id) as [e|] eqn:He.
    + rewrite (Delete_found id e r He). cbn [snd patients].
      apply lookup_delete_ne. congruence.
    + now rewrite (Delete_missing id r He).
Qed.

Lemma ticks_call (c : Call) (r : MockPatientRepository) :
  (ticks r <= ticks (call clock c r))%nat.
Proof.
  destruct c as [| id | p | p | id]; cbn [call]; try lia.
  - destruct (patients r !! HN p) as [e|] eqn:He.
    + rewrite (Create_exists clock p e r He). cbn. lia.
    + rewrite (Create_fresh clock p r He). cbn. lia.
  - destruct (patients r !! HN p) as [e|] eqn:He.
    + rewrite (Update_found clock p e r He). cbn. lia.
    + rewrite (Update_missing clock p r He). cbn. lia.
  - destruct (patients r !! hnString id) as [e|] eqn:He.
    + rewrite (Delete_found id e r He). cbn. lia.
    + rewrite (Delete_missing id r He). cbn. lia.
Qed.

Hypothesis clock_increasing : increasing clock.

Lemma increasing_le (i j : nat) : (i <= j)%nat -> (clock i <= clock j)%Z.
Proof.
  intros Hij. destruct (decide (i = j)) as [->|Hne]; [lia|].
  pose proof (clock_increasing i j ltac:(lia)). lia.
Qed.

Lemma created_apart_call (c : Call) (r : MockPatientRepository) :
  created_apart clock r -> created_apart clock (call clock c r).
Proof.
  intros [Hlt Hinj].
  destruct c as [| id | p | p | id]; cbn [call]; try (split; assumption).
  - destruct (patients r !! HN p) as [e|] eqn:He.
    + rewrite (Create_exists clock p e r He). now split.
    + rewrite (Create_fresh clock p r He). cbn [snd].
      pose proof (clock_increasing (ticks r) (S (S (ticks r))) ltac:(lia)).
      split.
      * intros k x. cbn [patients ticks]. rewrite lookup_insert.
        case_decide; [intros [= <-]; cbn; lia|].
        intros Hx. specialize (Hlt _ _ Hx). lia.
      * intros k1 k2 p1 p2. cbn [patients]. rewrite !lookup_insert.
        repeat case_decide; subst.
        -- reflexivity.
        -- intros [= <-] H2. cbn. specialize (Hlt _ _ H2). lia.
        -- intros H1 [= <-]. cbn. specialize (Hlt _ _ H1). lia.
        -- apply Hinj.
  - destruct (patients r !! HN p) as [e|] eqn:He.
    + rewrite (Update_found clock p e r He). cbn [snd].
      pose proof (clock_increasing (ticks r) (S (ticks r)) ltac:(lia)).
      split.
      * intros k x. cbn [patients ticks]. rewrite lookup_insert.
        case_decide; [intros [= <-]; cbn; specialize (Hlt _ _ He); lia|].
        intros Hx. specialize (Hlt _ _ Hx). lia.
      * intros k1 k2 p1 p2. cbn [patients]. rewrite !lookup_insert.
        repeat case_decide; subst.
        -- reflexivity.
        -- intros [= <-] H2. cbn. intros Hc. symmetry.
           apply (Hinj _ _ _ _ H2 He). congruence.
        -- intros H1 [= <-]. cbn. intros Hc.
           apply (Hinj _ _ _ _ H1 He). congruence.
        -- apply Hinj.
    + rewrite (Update_missing clock p r He). now split.
  - destruct (patients r !! hnString id) as [e|] eqn:He.
    + rewrite (Delete_found id e r He). cbn [snd]. split.
      * intros k x. cbn [patients ticks].
        intros [_ Hx]%lookup_delete_Some. exact (Hlt _ _ Hx).
      * intros k1 k2 p1 p2. cbn [patients].
        intros [_ H1]%lookup_delete_Some [_ H2]%lookup_delete_Some.
        exact (Hinj _ _ _ _ H1 H2).
    + rewrite (Delete_missing id r He). now split.
Qed.

Lemma reachable_created_apart (r : MockPatientRepository) :
  reachable clock r -> created_apart clock r.
Proof.
  induction 1 as [n | c r _ IH].
  - split.
    + intros k p. cbn [patients]. now rewrite lookup_empty.
    + intros k1 k2 p1 p2. cbn [patients]. now rewrite lookup_empty.
  - now apply created_apart_call.
Qed.

End StoreExtras.

(** X1. In every repository reachable from an empty one, every list that
    GetAll can return holds each hospital number at most once, and each
    listed record is the one held under its own hn. *)
Theorem listed_hn_distinct (clock : nat -> Store.Time)
        (r : Store.MockPatientRepository) (l : list Store.Patient) :
  Store.reachable clock r ->
  Store.GetAll_returns r l ->
  NoDup (Store.HN <$> l) /\
  forall p, p ∈ l -> Store.patients r !! Store.HN p = Some p.
Proof.
  intros Hr Hl. pose proof (reachable_keyed clock r Hr) as Hk. split.
  - destruct Hl as [Hperm _]. rewrite Hperm, (keyed_records_hn r Hk).
    apply NoDup_fst_map_to_list.
  - intros p Hp. apply (GetAll_returns_elem r l p Hl) in Hp as [k Hp].
    now rewrite (Hk _ _ Hp).
Qed.

Lemma listed_hn_distinct_witness :
  let r := Store.NewMockPatientRepository Store.tickClock 0 in
  Store.reachable Store.tickClock r /\
  Store.GetAll_returns r (Store.GetAll r) /\
  NoDup (Store.HN <$> Store.GetAll r).
Proof.
  intros r.
  assert (Hr : Store.reachable Store.tickClock r)
    by apply reachable_NewMockPatientRepository.
  assert (Hl : Store.GetAll_returns r (Store.GetAll r))
    by apply GetAll_returns_GetAll.
  split; [exact Hr|]. split; [exact Hl|].
  apply (listed_hn_distinct Store.tickClock r (Store.GetAll r) Hr Hl).
Defined.

(** X2. Creating a record under a canonical hn that is free and then
    deleting that hn succeeds and gives back exactly the records held
    before. *)
Theorem Create_Delete_restores (clock : nat -> Store.Time)
        (r : Store.MockPatientRepository) (p : Store.Patient) :
  Form.hnPattern (Store.HN p) = true ->
  Store.patients r !! Store.HN p = None ->
  let r1 := snd (Store.Create clock p r) in
  fst (Store.Delete (Store.hnNumber (Store.HN p)) r1) = None /\
  Store.patients (snd (Store.Delete (Store.hnNumber (Store.HN p)) r1))
  = Store.patients r.
Proof.
  intros Hcanon Hfresh r1. subst r1.
  destruct (hnString_hnNumber _ Hcanon) as [_ Hhn].
  rewrite (Create_fresh clock p r Hfresh). cbn [snd].
  rewrite (Delete_found _ (Store.stamped clock p r));
    [|cbn [Store.patients]; rewrite Hhn; apply lookup_insert_eq].
  cbn [fst snd Store.patients]. split; [reflexivity|].
  rewrite Hhn. now apply delete_insert_id.
Qed.

Lemma Create_Delete_restores_witness :
  let r := Store.NewMockPatientRepository Store.tickClock 0 in
  let p := Store.somchaiRequest "HN000042" in
  Form.hnPattern (Store.HN p) = true /\
  Store.patients r !! Store.HN p = None /\
  Store.patients
    (snd (Store.Delete 42 (snd (Store.Create Store.tickClock p r))))
  = Store.patients r.
Proof.
  intros r p.
  assert (Hcanon : Form.hnPattern (Store.HN p) = true) by reflexivity.
  assert (Hfresh : Store.patients r !! Store.HN p = None)
    by (vm_compute; reflexivity).
  split; [exact Hcanon|]. split; [exact Hfresh|].
  apply (Create_Delete_restores Store.tickClock r p Hcanon Hfresh).
Defined.

(** X3. When the records are filed under their own hn and a record is held
    under the canonical hn of p, update succeeds, and a get addressed by
    that hn then returns exactly the record update handed back to its
    caller: p's data with the creation time of the record replaced. *)
Theorem Update_then_GetByID (clock : nat -> Store.Time)
        (r : Store.MockPatientRepository) (p existing : Store.Patient) :
  Store.keyed r ->
  Form.hnPattern (Store.HN p) = true ->
  Store.patients r !! Store.HN p = Some existing ->
  exists returned,
    fst (Store.Update clock p r) = (returned, None) /\
    Store.GetByID (Store.hnNumber (Store.HN p)) (snd (Store.Update clock p r))
    = Store.Ok returned /\
    Store.sameData returned p /\
    Store.CreatedAt returned = Store.CreatedAt existing.
Proof.
  intros Hk Hcanon He.
  destruct (hnString_hnNumber _ Hcanon) as [_ Hhn].
  rewrite (Update_found clock p existing r He). cbv zeta. cbn [fst snd].
  eexists. split; [reflexivity|].
  split; [|split; [repeat split | reflexivity]].
  rewrite GetByID_lookup, Hhn. cbn [Store.patients].
  rewrite lookup_insert_eq. rewrite (Hk _ _ He). reflexivity.
Qed.

Lemma Update_then_GetByID_witness :
  let r := Store.NewMockPatientRepository Store.tickClock 0 in
  let p := Store.somchaiRequest "HN000002" in
  Store.keyed r /\
  Form.hnPattern (Store.HN p) = true /\
  is_Some (Store.patients r !! Store.HN p) /\
  exists returned,
    Store.GetByID 2 (snd (Store.Update Store.tickClock p r))
    = Store.Ok returned /\
    Store.sameData returned p.
Proof.
  intros r p.
  assert (Hk : Store.keyed r)
    by apply (reachable_keyed Store.tickClock),
             reachable_NewMockPatientRepository.
  assert (Hcanon : Form.hnPattern (Store.HN p) = true) by reflexivity.
  destruct (Store.patients r !! Store.HN p) as [e|] eqn:He;
    [|vm_compute in He; discriminate].
  split; [exact Hk|]. split; [exact Hcanon|]. split; [eauto|].
  destruct (Update_then_GetByID Store.tickClock r p e Hk Hcanon He)
    as (returned & _ & Hget & Hsame & _).
  exists returned. split; [exact Hget | exact Hsame].
Defined.

(** X4. Update never adds or removes a hospital number: the set of hn held
    is the same after the call, and an update addressed at an hn that is
    not held returns its not-found error and leaves the repository as it
    was. *)
Theorem Update_keeps_hns (clock : nat -> Store.Time)
        (r : Store.MockPatientRepository) (p : Store.Patient) :
  dom (Store.patients (snd (Store.Update clock p r)))
  = dom (Store.patients r) /\
  (snd (fst (Store.Update clock p r)) = None
   <-> is_Some (Store.patients r !! Store.HN p)) /\
  (Store.patients r !! Store.HN p = None ->
   Store.Update clock p r
   = ((p, Some (Store.UpdateNotFound (Store.HN p))), r)).
Proof.
  destruct (Store.patients r !! Store.HN p) as [e|] eqn:He.
  - rewrite (Update_found clock p e r He). cbv zeta.
    cbn [fst snd Store.patients].
    split; [apply dom_insert_lookup_L; eauto|].
    split; [split; eauto | discriminate].
  - rewrite (Update_missing clock p r He). cbn [fst snd].
    split; [reflexivity|]. split; [|reflexivity].
    split; [discriminate | intros [? ?]; discriminate].
Qed.

(** X5. A call touches one hospital number at most: whatever the call and
    its outcome, the record held (or not held) under any other hn is the
    same before and after. *)
Theorem call_leaves_others (clock : nat -> Store.Time) (c : Store.Call)
        (r : Store.MockPatientRepository) (k : string) :
  Calls.target c <> Some k ->
  Store.patients (Store.call clock c r) !! k = Store.patients r !! k.
Proof. apply call_other_key. Qed.

Lemma call_leaves_others_witness :
  let r := Store.NewMockPatientRepository Store.tickClock 0 in
  Calls.target (Store.CallDelete 1) <> Some "HN000002" /\
  Store.patients (Store.call Store.tickClock (Store.CallDelete 1) r)
    !! "HN000002"
  = Store.patients r !! "HN000002".
Proof.
  intros r.
  assert (Hne : Calls.target (Store.CallDelete 1) <> Some "HN000002")
    by (vm_compute; discriminate).
  split; [exact Hne|].
  apply (call_leaves_others Store.tickClock (Store.CallDelete 1) r
                            "HN000002" Hne).
Defined.

(** X6. With a clock that never runs backwards, every record that GetAll
    can list from a reachable repository was created no later than it was
    last updated, and carries no timestamp ahead of the clock. *)
Theorem created_before_updated (clock : nat -> Store.Time)
        (r : Store.MockPatientRepository) (l : list Store.Patient) :
  Store.monotone clock ->
  Store.reachable clock r ->
  Store.GetAll_returns r l ->
  Forall (fun p => (Store.CreatedAt p <= Store.UpdatedAt p)%Z /\
                   (Store.UpdatedAt p <= clock (Store.ticks r))%Z) l.
Proof.
  intros Hmono Hr Hl. apply Forall_forall. intros p Hp.
  apply (GetAll_returns_elem r l p Hl) in Hp as [k Hp].
  exact (reachable_timely clock Hmono r Hr k p Hp).
Qed.

Lemma created_before_updated_witness :
  let r := Store.NewMockPatientRepository Store.tickClock 0 in
  Store.monotone Store.tickClock /\
  Store.reachable Store.tickClock r /\
  Store.GetAll_returns r (Store.GetAll r) /\
  Forall (fun p => (Store.CreatedAt p <= Store.UpdatedAt p)%Z)
         (Store.GetAll r).
Proof.
  intros r.
  assert (Hr : Store.reachable Store.tickClock r)
    by apply reachable_NewMockPatientRepository.
  assert (Hl : Store.GetAll_returns r (Store.GetAll r))
    by apply GetAll_returns_GetAll.
  split; [exact tickClock_monotone|]. split; [exact Hr|]. split; [exact Hl|].
  pose proof (created_before_updated Store.tickClock r (Store.GetAll r)
                tickClock_monotone Hr Hl) as Hall.
  eapply Forall_impl; [exact Hall|]. intros p [Hcu _]. exact Hcu.
Defined.

(** X7. With a clock that tells any two readings apart, no two records of
    a reachable repository share a creation time, so GetAll has one
    possible answer: the records strictly newest first. *)
Theorem GetAll_order_unique (clock : nat -> Store.Time)
        (r : Store.MockPatientRepository) (l : list Store.Patient) :
  Calls.increasing clock ->
  Store.reachable clock r ->
  Store.GetAll_returns r l ->
  l = Store.GetAll r /\
  StronglySorted (fun a b => (Store.CreatedAt b < Store.CreatedAt a)%Z) l.
Proof.
  intros Hinc Hr Hl.
  destruct (reachable_created_apart clock Hinc r Hr) as [_ Hinj].
  assert (Heq : forall x y, x ∈ l -> y ∈ l ->
                            Store.CreatedAt x = Store.CreatedAt y -> x = y).
  { intros x y Hx Hy Hc.
    apply (GetAll_returns_elem r l x Hl) in Hx as [kx Hx].
    apply (GetAll_returns_elem r l y Hl) in Hy as [ky Hy].
    assert (kx = ky) by exact (Hinj _ _ _ _ Hx Hy Hc). congruence. }
  pose proof (GetAll_returns_GetAll r) as [Hperm' Hsorted'].
  destruct Hl as [Hperm Hsorted]. split.
  - apply (StronglySorted_unique_strong Store.newestFirst);
      [|assumption|assumption|now rewrite Hperm, Hperm'].
    intros x y Hx Hy Hxy Hyx. apply Heq; [exact Hx| |].
    + now rewrite Hperm, <- Hperm'.
    + unfold Store.newestFirst in *. lia.
  - assert (Hnd : NoDup l).
    { rewrite Hperm. unfold Store.records.
      apply (NoDup_fmap_2_strong snd); [|apply NoDup_map_to_list].
      intros [k1 p1] [k2 p2] H1 H2 Hp. cbn in Hp. subst p2.
      apply elem_of_map_to_list in H1, H2.
      assert (k1 = k2) by exact (Hinj _ _ _ _ H1 H2 eq_refl). congruence. }
    clear Hperm. induction Hsorted as [|x l Hs IH Hx]; [constructor|].
    apply NoDup_cons in Hnd as [Hnotin Hnd].
    constructor.
    + apply IH; [|exact Hnd]. intros a b Ha Hb. apply Heq; now right.
    + apply Forall_forall. intros y Hy.
      rewrite Forall_forall in Hx. specialize (Hx y Hy).
      unfold Store.newestFirst in Hx.
      destruct (Z.eq_dec (Store.CreatedAt y) (Store.CreatedAt x)) as [Hc|Hc];
        [|lia].
      assert (y = x) by (apply Heq; [now right | now left | exact Hc]).
      subst y. contradiction.
Qed.

Lemma tickClock_increasing : Calls.increasing Store.tickClock.
Proof. intros i j Hij. unfold Store.tickClock. lia. Qed.

Lemma GetAll_order_unique_witness :
  let r := Store.NewMockPatientRepository Store.tickClock 0 in
  Calls.increasing Store.tickClock /\
  Store.reachable Store.tickClock r /\
  Store.GetAll_returns r (Store.GetAll r) /\
  StronglySorted (fun a b => (Store.CreatedAt b < Store.CreatedAt a)%Z)
                 (Store.GetAll r).
Proof.
  intros r.
  assert (Hr : Store.reachable Store.tickClock r)
    by apply reachable_NewMockPatientRepository.
  assert (Hl : Store.GetAll_returns r (Store.GetAll r))
    by apply GetAll_returns_GetAll.
  split; [exact tickClock_increasing|]. split; [exact Hr|].
  split; [exact Hl|].
  apply (GetAll_order_unique Store.tickClock r (Store.GetAll r)
           tickClock_increasing Hr Hl).
Defined.

Lemma createAll_distinct_witness :
  let r := Store.NewMockPatientRepository Store.tickClock 0 in
  let ps := [Store.somchaiRequest "HN000007"; Store.somchaiRequest "HN1"] in
  NoDup (Store.HN <$> ps) /\
  (forall p, p ∈ ps -> Store.patients r !! Store.HN p = None) /\
  Forall (fun e => e = None) (fst (Store.createAll Store.tickClock ps r)).
Proof.
  intros r ps.
  assert (Hnd : NoDup (Store.HN <$> ps)).
  { repeat constructor; [|apply not_elem_of_nil].
    intros Hin%list_elem_of_singleton. discriminate. }
  assert (Hfree : forall p, p ∈ ps -> Store.patients r !! Store.HN p = None).
  { intros p Hp. repeat (apply elem_of_cons in Hp as [-> | Hp]);
      [vm_compute; reflexivity | vm_compute; reflexivity | inversion Hp]. }
  split; [exact Hnd|]. split; [exact Hfree|].
  apply (createAll_distinct Store.tickClock ps r Hnd Hfree).
Defined.

Lemma createAll_same_witness :
  let r := Store.NewMockPatientRepository Store.tickClock 0 in
  let p := Store.somchaiRequest "HN000007" in
  Store.patients r !! Store.HN p = None /\
  Forall (fun q => Store.HN q = Store.HN p) [p; p] /\
  fst (Store.createAll Store.tickClock [p; p; p] r)
  = [None; Some (Store.AlreadyExists "HN000007");
     Some (Store.AlreadyExists "HN000007")].
Proof.
  intros r p.
  assert (Hfree : Store.patients r !! Store.HN p = None)
    by (vm_compute; reflexivity).
  assert (Hall : Forall (fun q => Store.HN q = Store.HN p) [p; p])
    by (repeat constructor).
  split; [exact Hfree|]. split; [exact Hall|].
  apply (createAll_same Store.tickClock p [p; p] r Hfree Hall).
Defined.

(** * Further properties of the identifier scheme *)
Section SurrogateFacts.
Import JS Store.
Local Open Scope Z_scope.

Lemma digitVal_digitChar (d : Z) : 0 <= d < 10 -> digitVal (digitChar d) = d.
Proof.
  intros Hd.
  assert (d = 0 \/ d = 1 \/ d = 2 \/ d = 3 \/ d = 4 \/ d = 5 \/ d = 6 \/
          d = 7 \/ d = 8 \/ d = 9) as Hcases by lia.
  repeat (destruct Hcases as [-> | Hcases]; [reflexivity|]).
  now subst d.
Qed.

Lemma decValue_append (s t : string) :
  forall acc, decValue acc (s ++ t) = decValue (decValue acc s) t.
Proof.
  induction s as [|c s IH]; intros acc; [reflexivity|].
  rewrite append_cons. cbn [decValue]. apply IH.
Qed.

Lemma decValue_decimalFuel (f : nat) :
  forall n, 0 <= n < 2 ^ Z.of_nat (S f) ->
            decValue 0 (decimalFuel (S f) n) = n.
Proof.
  induction f as [|f IH]; intros n Hn; rewrite decimalFuel_S, decValue_append.
  - change (2 ^ Z.of_nat 1) with 2 in Hn.
    destruct (Z.ltb_spec n 10); [|lia]. cbn [decValue].
    rewrite Z.mod_small, digitVal_digitChar by lia. lia.
  - destruct (Z.ltb_spec n 10) as [|Hge].
    + cbn [decValue]. rewrite Z.mod_small, digitVal_digitChar by lia. lia.
    + rewrite IH.
      * cbn [decValue].
        rewrite digitVal_digitChar by (apply Z.mod_pos_bound; lia).
        pose proof (Z.div_mod n 10 ltac:(lia)). lia.
      * rewrite (Nat2Z.inj_succ (S f)), Z.pow_succ_r in Hn by lia.
        split; [apply Z.div_pos; lia|].
        apply Z.div_lt_upper_bound; lia.
Qed.

Lemma decValue_decimal (n : Z) : 0 <= n -> decValue 0 (decimal n) = n.
Proof. intros Hn. apply decValue_decimalFuel, decimal_bound, Hn. Qed.

Lemma decValue_zeros (k : nat) (s : string) :
  decValue 0 (repeatChar k "0" ++ s) = decValue 0 s.
Proof. induction k as [|k IH]; [reflexivity | exact IH]. Qed.

Lemma decValue_padStart (k : nat) (s : string) :
  decValue 0 (padStart k "0" s) = decValue 0 s.
Proof. apply decValue_zeros. Qed.

Lemma decimal_nonempty_digits (n : Z) :
  0 <= n -> allChars isDigit (decimal n) = true /\ decimal n <> ""%string.
Proof.
  intros Hn. split; [now apply allChars_decimalFuel|].
  unfold decimal. rewrite decimalFuel_S.
  destruct (if n <? 10 then ""%string
            else decimalFuel (Z.to_nat (Z.log2 n)) (n / 10)); discriminate.
Qed.

End SurrogateFacts.

(** X10. The number of a hospital number and the key of a number undo each
    other: reading the digits of the key of any n from 0 up gives n back;
    the key of the number of a canonical hn is that hn, and its number lies
    between 0 and 999999; and the key of every n from 0 to 999999 is
    canonical. *)
Theorem surrogate_round_trip (n : Z) (hn : string) :
  ((0 <= n)%Z -> Store.hnNumber (Store.hnString n) = n) /\
  ((0 <= n <= 999999)%Z -> Form.hnPattern (Store.hnString n) = true) /\
  (Form.hnPattern hn = true ->
   (0 <= Store.hnNumber hn <= 999999)%Z /\
   Store.hnString (Store.hnNumber hn) = hn).
Proof.
  split; [|split].
  - intros Hn. unfold Store.hnNumber, Store.hnString, Store.fmt06d.
    destruct (Z.ltb_spec n 0); [lia|].
    rewrite sliceFrom_2_HN, decValue_padStart. now apply decValue_decimal.
  - apply hnPattern_hnString.
  - apply hnString_hnNumber.
Qed.

(** X11. Get and delete addressed by different integers never address the
    same key: the key HN%06d of an integer determines the integer, for
    negative ones and ones above 999999 too. *)
Theorem hnString_inj (a b : Z) :
  Store.hnString a = Store.hnString b -> a = b.
Proof.
  unfold Store.hnString, Store.fmt06d. intros Heq.
  apply append_HN_inj in Heq.
  assert (Hminus : forall x, JS.allChars JS.isDigit ("-" ++ x) = false)
    by reflexivity.
  destruct (Z.ltb_spec a 0) as [Ha|Ha]; destruct (Z.ltb_spec b 0) as [Hb|Hb].
  - assert (Htail : JS.padStart 5 "0" (Store.decimal (- a))
                    = JS.padStart 5 "0" (Store.decimal (- b)))
      by now injection Heq.
    apply (f_equal (Store.decValue 0)) in Htail.
    rewrite !decValue_padStart, !decValue_decimal in Htail by lia. lia.
  - apply (f_equal (JS.allChars JS.isDigit)) in Heq.
    rewrite Hminus, allChars_padStart_0 in Heq.
    destruct (decimal_nonempty_digits b Hb) as [Hd _]. rewrite Hd in Heq.
    discriminate.
  - apply (f_equal (JS.allChars JS.isDigit)) in Heq.
    rewrite Hminus, allChars_padStart_0 in Heq.
    destruct (decimal_nonempty_digits a Ha) as [Hd _]. rewrite Hd in Heq.
    discriminate.
  - apply (f_equal (Store.decValue 0)) in Heq.
    rewrite !decValue_padStart, !decValue_decimal in Heq by lia. exact Heq.
Qed.

Lemma hnString_inj_witness :
  Store.hnString 7 = Store.hnString (3 + 4) /\ 7%Z = (3 + 4)%Z.
Proof.
  assert (Heq : Store.hnString 7 = Store.hnString (3 + 4)) by reflexivity.
  split; [exact Heq|]. apply (hnString_inj 7 (3 + 4) Heq).
Defined.

(** * Further properties of the form's hospital numbers *)
Section FormatFacts.
Import JS Form.

Lemma allChars_keepChars (p : ascii -> bool) (s : string) :
  allChars p (keepChars p s) = true.
Proof.
  induction s as [|c s IH]; [reflexivity|]. cbn [keepChars].
  destruct (p c) eqn:Hc; [cbn [allChars]; now rewrite Hc | exact IH].
Qed.

Lemma keepChars_all (p : ascii -> bool) (s : string) :
  allChars p s = true -> keepChars p s = s.
Proof.
  induction s as [|c s IH]; [reflexivity|]. cbn [allChars keepChars].
  intros [Hc Hs]%andb_prop. rewrite Hc. now rewrite IH.
Qed.

Lemma keepChars_append (p : ascii -> bool) (s t : string) :
  keepChars p (s ++ t) = keepChars p s ++ keepChars p t.
Proof.
  induction s as [|c s IH]; [reflexivity|].
  rewrite append_cons. cbn [keepChars].
  destruct (p c); [rewrite append_cons|]; now rewrite IH.
Qed.

Lemma allChars_substring (p : ascii -> bool) (s : string) :
  forall a n, allChars p s = true -> allChars p (String.substring a n s) = true.
Proof.
  induction s as [|c s IH]; intros a n Hs.
  - now destruct a, n.
  - cbn [allChars] in Hs. apply andb_prop in Hs as [Hc Hs].
    destruct a as [|a]; [destruct n as [|n]|]; cbn [String.substring].
    + reflexivity.
    + cbn [allChars]. now rewrite Hc, IH.
    + now apply IH.
Qed.

Lemma upperChar_HN09 (c : ascii) : isHN09 c = true -> upperChar c = c.
Proof.
  destruct c as [[] [] [] [] [] [] [] []]; try discriminate; reflexivity.
Qed.

Lemma toUpperCase_HN09 (s : string) :
  allChars isHN09 s = true -> toUpperCase s = s.
Proof.
  induction s as [|c s IH]; [reflexivity|]. cbn [allChars toUpperCase].
  intros [Hc Hs]%andb_prop. now rewrite (upperChar_HN09 c Hc), IH.
Qed.

Lemma stripHN_HN09 (s : string) : allChars isHN09 s = true -> stripHN s = s.
Proof.
  intros Hs. unfold stripHN. rewrite (toUpperCase_HN09 s Hs).
  now apply keepChars_all.
Qed.

Lemma isDigit_isHN09 (s : string) :
  allChars isDigit s = true -> allChars isHN09 s = true.
Proof.
  induction s as [|c s IH]; [reflexivity|]. cbn [allChars].
  intros [Hc Hs]%andb_prop. unfold isHN09 at 1. now rewrite Hc, IH.
Qed.

Lemma allChars_prefixHN (s : string) :
  allChars isHN09 s = true -> allChars isHN09 (prefixHN s) = true.
Proof.
  intros Hs. unfold prefixHN.
  destruct (negb (isEmpty s) && startsWithDigit s); [|exact Hs].
  rewrite allChars_append, Hs. reflexivity.
Qed.

Lemma allChars_cleaned (x : string) :
  allChars isHN09 (prefixHN (stripHN x)) = true.
Proof. apply allChars_prefixHN, allChars_keepChars. Qed.

Lemma prefixHN_HN (ds : string) : prefixHN ("HN" ++ ds) = "HN" ++ ds.
Proof. reflexivity. Qed.

Lemma startsWith_HN_true (ds : string) : startsWith "HN" ("HN" ++ ds) = true.
Proof. apply startsWith_HN. now exists ds. Qed.

(** What [formatHN] returns, by the two cases of its last statement. *)
Lemma formatHN_cases (x : string) :
  (exists ds, prefixHN (stripHN x) = "HN" ++ ds /\
              formatHN x = "HN" ++ slice 0 6 ds) \/
  (startsWith "HN" (prefixHN (stripHN x)) = false /\
   formatHN x = stripHN x /\
   prefixHN (stripHN x) = stripHN x).
Proof.
  destruct (startsWith "HN" (prefixHN (stripHN x))) eqn:Hp.
  - left. apply startsWith_HN in Hp as [ds Hds]. exists ds.
    split; [exact Hds | now apply formatHN_prefixed].
  - right. split; [reflexivity|].
    rewrite (formatHN_unprefixed x Hp).
    unfold prefixHN in *.
    destruct (negb (isEmpty (stripHN x)) && startsWithDigit (stripHN x));
      [|split; reflexivity].
    now rewrite startsWith_HN_true in Hp.
Qed.

Lemma length_slice_0 (n : nat) (s : string) :
  (String.length (slice 0 n s) <= n)%nat.
Proof. unfold slice. rewrite length_substring_0. lia. Qed.

Lemma addLeadingZeros_HN_any (np : string) :
  addLeadingZeros ("HN" ++ np) =
    if (0 <? String.length np)%nat && (String.length np <? 6)%nat
    then "HN" ++ padStart 6 "0" np else "HN" ++ np.
Proof.
  unfold addLeadingZeros. rewrite startsWith_HN_true.
  change (isEmpty ("HN" ++ np)) with false. cbn [orb negb].
  now rewrite sliceFrom_2_HN.
Qed.


Lemma hnPattern_fixed (hn : string) :
  hnPattern hn = true ->
  formatHN hn = hn /\ addLeadingZeros hn = hn /\ parseHN hn = Some hn.
Proof.
  intros Hp. destruct (hnPattern_startsWith hn Hp) as [ds ->].
  pose proof Hp as Hp'. rewrite hnPattern_HN in Hp'.
  apply andb_prop in Hp' as [Hlen Hds]. apply Nat.eqb_eq in Hlen.
  assert (Hfmt : formatHN ("HN" ++ ds) = "HN" ++ ds).
  { rewrite (formatHN_prefixed ("HN" ++ ds) ds).
    - unfold slice. now rewrite substring_0_short by lia.
    - rewrite stripHN_HN09; [reflexivity|].
      rewrite allChars_append. now rewrite (isDigit_isHN09 ds Hds). }
  assert (Hpad : addLeadingZeros ("HN" ++ ds) = "HN" ++ ds).
  { rewrite addLeadingZeros_HN_any, Hlen. reflexivity. }
  split; [exact Hfmt|]. split; [exact Hpad|].
  unfold parseHN. cbv zeta. rewrite Hfmt, Hpad.
  now rewrite (proj2 (validateHN_valid_iff _) Hp).
Qed.

Lemma parseHN_hnPattern (raw hn : string) :
  parseHN raw = Some hn -> hnPattern hn = true.
Proof.
  unfold parseHN. cbv zeta.
  destruct (isValid (validateHN (addLeadingZeros (formatHN raw)))) eqn:Hv;
    [|discriminate].
  intros [= <-]. now apply validateHN_valid_iff.
Qed.

End FormatFacts.

(** X12. Formatting a hospital number that is already formatted changes
    nothing: formatHN gives the same text when applied a second time, as
    the form does with every keystroke. *)
Theorem formatHN_idempotent (x : string) :
  Form.formatHN (Form.formatHN x) = Form.formatHN x.
Proof.
  destruct (formatHN_cases x) as [(ds & Hc & ->) | (Hp & -> & Hc)].
  - rewrite (formatHN_prefixed _ (JS.slice 0 6 ds)).
    + unfold JS.slice at 1.
      rewrite substring_0_short; [reflexivity|].
      pose proof (length_slice_0 6 ds). lia.
    + rewrite stripHN_HN09; [reflexivity|].
      pose proof (allChars_cleaned x) as Hall. rewrite Hc in Hall.
      rewrite allChars_append in Hall |- *.
      apply andb_prop in Hall as [_ Hds]. cbn [andb].
      change (JS.allChars Form.isHN09 "HN") with true. cbn [andb].
      now apply allChars_substring.
  - assert (Hs : Form.stripHN (Form.stripHN x) = Form.stripHN x)
      by (apply stripHN_HN09, allChars_keepChars).
    rewrite formatHN_unprefixed; rewrite Hs, Hc; [reflexivity|].
    now rewrite <- Hc.
Qed.

(** X13. Whatever the input, the text formatHN returns consists of the
    characters H, N and the digits only, does not start with a digit, and,
    when it starts with HN, has at most six characters after it. *)
Theorem formatHN_shape (x : string) :
  JS.allChars Form.isHN09 (Form.formatHN x) = true /\
  JS.startsWithDigit (Form.formatHN x) = false /\
  (JS.startsWith "HN" (Form.formatHN x) = true ->
   (String.length (Form.formatHN x) <= 8)%nat).
Proof.
  destruct (formatHN_cases x) as [(ds & Hc & ->) | (Hp & -> & Hc)].
  - pose proof (allChars_cleaned x) as Hall. rewrite Hc in Hall.
    rewrite allChars_append in Hall. apply andb_prop in Hall as [_ Hds].
    split; [|split; [reflexivity|]].
    + rewrite allChars_append.
      change (JS.allChars Form.isHN09 "HN") with true. cbn [andb].
      now apply allChars_substring.
    + intros _. rewrite length_append.
      pose proof (length_slice_0 6 ds). cbn [String.length]. lia.
  - split; [apply allChars_keepChars|]. split.
    + unfold Form.prefixHN in Hc.
      destruct (Form.stripHN x) as [|c s] eqn:Hx; [reflexivity|].
      cbn [JS.isEmpty negb andb] in Hc.
      destruct (JS.startsWithDigit (String c s)) eqn:Hd; [|reflexivity].
      apply (f_equal String.length) in Hc.
      rewrite length_append in Hc. cbn [String.length] in Hc. lia.
    + rewrite <- Hc at 1. congruence.
Qed.

(** X14. A canonical hospital number (HN and six digits) passes through
    the form unchanged: formatHN and addLeadingZeros return it as it is
    and parseHN accepts it as itself. Everything parseHN accepts is
    canonical, so parsing an accepted number again gives the same
    number. *)
Theorem canonical_hn_fixed (raw hn : string) :
  (Form.hnPattern hn = true ->
   Form.formatHN hn = hn /\ Form.addLeadingZeros hn = hn /\
   Form.parseHN hn = Some hn) /\
  (Form.parseHN raw = Some hn ->
   Form.hnPattern hn = true /\ Form.parseHN hn = Some hn).
Proof.
  split; [apply hnPattern_fixed|].
  intros Hp%parseHN_hnPattern. split; [exact Hp|].
  now apply hnPattern_fixed.
Qed.


(** X16. The form and the backend agree on short hospital numbers: for HN
    followed by one to six digits, the zero padding of the form gives the
    very key that the backend addresses for the number read from that
    text. *)
Theorem addLeadingZeros_is_backend_key (ds : string) :
  JS.allChars JS.isDigit ds = true ->
  (1 <= String.length ds <= 6)%nat ->
  Form.addLeadingZeros ("HN" ++ ds)
  = Store.hnString (Store.hnNumber ("HN" ++ ds)).
Proof.
  intros Hds Hlen.
  assert (Hpad : Form.addLeadingZeros ("HN" ++ ds)
                 = "HN" ++ JS.padStart 6 "0" ds).
  { rewrite addLeadingZeros_HN_any.
    destruct (Nat.ltb_spec 0 (String.length ds)); [|lia].
    destruct (Nat.ltb_spec (String.length ds) 6); [reflexivity|].
    cbn [andb]. now rewrite padStart_long by lia. }
  assert (Hcanon : Form.hnPattern ("HN" ++ JS.padStart 6 "0" ds) = true).
  { rewrite hnPattern_HN, allChars_padStart_0, Hds, length_padStart.
    replace (Nat.max 6 (String.length ds)) with 6%nat by lia. reflexivity. }
  destruct (hnString_hnNumber _ Hcanon) as [_ Hkey].
  rewrite Hpad, <- Hkey at 1. f_equal.
  unfold Store.hnNumber. rewrite !sliceFrom_2_HN. apply decValue_padStart.
Qed.

Lemma addLeadingZeros_is_backend_key_witness :
  JS.allChars JS.isDigit "42" = true /\
  (1 <= String.length "42" <= 6)%nat /\
  Form.addLeadingZeros "HN42" = Store.hnString (Store.hnNumber "HN42").
Proof.
  assert (Hds : JS.allChars JS.isDigit "42" = true) by reflexivity.
  assert (Hlen : (1 <= String.length "42" <= 6)%nat) by (simpl; lia).
  split; [exact Hds|]. split; [exact Hlen|].
  apply (addLeadingZeros_is_backend_key "42" Hds Hlen).
Defined.

(** X19. Every generated hospital number is canonical: whichever of the
    999999 values the draw takes, generateHN returns the key of a number
    from 1 to 999999, which the form accepts as it is. *)
Theorem generateHN_canonical (floor : Z) :
  (0 <= floor <= 999998)%Z ->
  Intake.generateHN floor = Store.hnString (floor + 1) /\
  Form.hnPattern (Intake.generateHN floor) = true /\
  Form.parseHN (Intake.generateHN floor) = Some (Intake.generateHN floor) /\
  Store.hnNumber (Intake.generateHN floor) = (floor + 1)%Z.
Proof.
  intros Hf.
  assert (Heq : Intake.generateHN floor = Store.hnString (floor + 1)).
  { unfold Intake.generateHN, Store.hnString, Store.fmt06d. cbv zeta.
    destruct (Z.ltb_spec (floor + 1) 0); [lia | reflexivity]. }
  assert (Hcanon : Form.hnPattern (Intake.generateHN floor) = true)
    by (rewrite Heq; apply hnPattern_hnString; lia).
  split; [exact Heq|]. split; [exact Hcanon|].
  split; [now apply hnPattern_fixed|].
  rewrite Heq. unfold Store.hnNumber, Store.hnString, Store.fmt06d.
  destruct (Z.ltb_spec (floor + 1) 0); [lia|].
  rewrite sliceFrom_2_HN, decValue_padStart. apply decValue_decimal. lia.
Qed.

Lemma generateHN_canonical_witness :
  (0 <= 41 <= 999998)%Z /\ Intake.generateHN 41 = "HN000042".
Proof.
  assert (Hf : (0 <= 41 <= 999998)%Z) by lia.
  split; [exact Hf|].
  destruct (generateHN_canonical 41 Hf) as [Heq _].
  rewrite Heq. reflexivity.
Defined.

(** * Further properties of the phone field *)
Section PhoneFacts.
Import JS Form.

Lemma substring_empty (a n : nat) : String.substring a n "" = "".
Proof. now destruct a, n. Qed.

Lemma substring_split (s : string) :
  forall a n m,
    String.substring a n s ++ String.substring (a + n) m s
    = String.substring a (n + m) s.
Proof.
  induction s as [|c s IH]; intros a n m.
  - now rewrite !substring_empty.
  - destruct a as [|a].
    + destruct n as [|n]; [reflexivity|].
      cbn [String.substring Nat.add]. rewrite append_cons. f_equal.
      apply (IH 0%nat n m).
    + cbn [String.substring Nat.add]. apply IH.
Qed.

Lemma substring_all (s : string) :
  forall a n, (String.length s - a <= n)%nat ->
              String.substring a n s = String.substring a (String.length s - a) s.
Proof.
  induction s as [|c s IH]; intros a n Hn.
  - now rewrite !substring_empty.
  - destruct a as [|a].
    + cbn [String.length Nat.sub] in *. destruct n as [|n]; [lia|].
      cbn [String.substring]. f_equal.
      rewrite (IH 0%nat n) by lia. now rewrite Nat.sub_0_r.
    + cbn [String.length String.substring Nat.sub] in *. now apply IH.
Qed.

Lemma substring_whole (s : string) :
  String.substring 0 (String.length s) s = s.
Proof. apply substring_0_short. lia. Qed.

Lemma substring_of_prefix (s : string) :
  forall a n k, (a + n <= k)%nat ->
    String.substring a n (String.substring 0 k s) = String.substring a n s.
Proof.
  induction s as [|c s IH]; intros a n k Hk.
  - now rewrite !substring_empty.
  - destruct k as [|k].
    + assert (a = 0 /\ n = 0)%nat as [-> ->] by lia. reflexivity.
    + cbn [String.substring]. destruct a as [|a].
      * destruct n as [|n]; [reflexivity|]. cbn [String.substring]. f_equal.
        apply (IH 0%nat n k). lia.
      * cbn [String.substring]. apply IH. lia.
Qed.

Lemma startsWith_of_prefix (p : string) :
  forall s k, (String.length p <= k)%nat ->
    startsWith p (String.substring 0 k s) = startsWith p s.
Proof.
  induction p as [|a p IH]; intros s k Hk; [reflexivity|].
  cbn [String.length] in Hk. destruct k as [|k]; [lia|].
  destruct s as [|b s]; [reflexivity|].
  cbn [String.substring]. rewrite !startsWith_cons. f_equal.
  apply IH. lia.
Qed.

Lemma digitsOnly_digits (s : string) :
  allChars isDigit s = true -> digitsOnly s = s.
Proof. apply keepChars_all. Qed.

Lemma allDigits_digitsOnly (s : string) :
  allChars isDigit (digitsOnly s) = true.
Proof. apply allChars_keepChars. Qed.

Lemma digitsOnly_dash (s t : string) :
  digitsOnly (s ++ "-" ++ t) = digitsOnly s ++ digitsOnly t.
Proof. unfold digitsOnly. now rewrite !keepChars_append. Qed.

Lemma digitsOnly_substring (a n : nat) (s : string) :
  digitsOnly (String.substring a n (digitsOnly s))
  = String.substring a n (digitsOnly s).
Proof. apply digitsOnly_digits, allChars_substring, allDigits_digitsOnly. Qed.

Lemma formatPhoneNumber_congr (x y : string) :
  digitsOnly x = digitsOnly y -> formatPhoneNumber x = formatPhoneNumber y.
Proof. intros H. unfold formatPhoneNumber. now rewrite H. Qed.

Lemma digitsOnly_formatPhoneNumber (p : string) :
  digitsOnly (formatPhoneNumber p) = slice 0 10 (digitsOnly p).
Proof.
  unfold formatPhoneNumber, slice, sliceFrom. cbv zeta.
  set (d := digitsOnly p). cbn [Nat.sub].
  destruct (Nat.leb_spec (String.length d) 3) as [H3|H3].
  - rewrite substring_0_short by lia.
    apply digitsOnly_digits, allDigits_digitsOnly.
  - destruct (Nat.leb_spec (String.length d) 6) as [H6|H6];
      [|destruct (Nat.leb_spec (String.length d) 10) as [H10|H10]].
    + rewrite digitsOnly_dash. subst d. rewrite !digitsOnly_substring.
      rewrite (substring_split _ 0 3), (substring_0_short 10) by lia.
      replace (3 + (String.length (digitsOnly p) - 3))%nat
        with (String.length (digitsOnly p)) by lia.
      apply substring_whole.
    + rewrite !digitsOnly_dash. subst d. rewrite !digitsOnly_substring.
      rewrite (substring_split _ 3 3), (substring_split _ 0 3).
      rewrite (substring_0_short 10) by lia.
      replace (3 + (3 + (String.length (digitsOnly p) - 6)))%nat
        with (String.length (digitsOnly p)) by lia.
      apply substring_whole.
    + rewrite !digitsOnly_dash. subst d. rewrite !digitsOnly_substring.
      now rewrite (substring_split _ 3 3), (substring_split _ 0 3).
Qed.

End PhoneFacts.

Section PhoneFormatFacts.
Import JS Form.

Lemma length_substring_le (s : string) :
  forall a n, (String.length (String.substring a n s) <= n)%nat.
Proof.
  induction s as [|c s IH]; intros a n.
  - rewrite substring_empty. simpl. lia.
  - destruct a as [|a]; [destruct n as [|n]|]; cbn [String.substring].
    + simpl. lia.
    + cbn [String.length]. pose proof (IH 0%nat n). lia.
    + apply IH.
Qed.

Lemma formatPhoneNumber_long (d : string) :
  (10 < String.length d)%nat ->
  allChars isDigit d = true ->
  formatPhoneNumber (slice 0 10 d) = formatPhoneNumber d.
Proof.
  intros Hlen Hd. unfold formatPhoneNumber. cbv zeta.
  rewrite (digitsOnly_digits d Hd).
  rewrite (digitsOnly_digits (slice 0 10 d))
    by (now apply allChars_substring).
  assert (Hl : String.length (slice 0 10 d) = 10%nat)
    by (unfold slice; rewrite length_substring_0; lia).
  rewrite Hl. cbn [Nat.leb].
  destruct (Nat.leb_spec (String.length d) 3); [lia|].
  destruct (Nat.leb_spec (String.length d) 6); [lia|].
  destruct (Nat.leb_spec (String.length d) 10); [lia|].
  unfold sliceFrom. rewrite Hl. unfold slice. cbn [Nat.sub].
  now rewrite !substring_of_prefix by lia.
Qed.

Lemma formatPhoneNumber_empty_iff (p : string) :
  formatPhoneNumber p = "" <-> digitsOnly p = "".
Proof.
  unfold formatPhoneNumber. cbv zeta. set (d := digitsOnly p).
  destruct (Nat.leb_spec (String.length d) 3) as [H3|H3]; [reflexivity|].
  assert (Hne : d <> "") by (intros E; rewrite E in H3; simpl in H3; lia).
  assert (Hdash : forall a b : string, a ++ "-" ++ b <> "").
  { intros a b E. apply (f_equal String.length) in E.
    rewrite !length_append in E. simpl in E. lia. }
  destruct (String.length d <=? 6)%nat;
    [|destruct (String.length d <=? 10)%nat];
    (split; [intros E; now apply Hdash in E | intros E; contradiction]).
Qed.

End PhoneFormatFacts.

(** X17. The display form of a phone keeps the first ten digits of the
    input, in order, and nothing else but dashes: stripping the non-digits
    from what formatPhoneNumber returns gives the first ten digits typed.
    Formatting a formatted phone changes nothing, and the display form
    never has more than 12 characters. *)
Theorem formatPhoneNumber_digits (p : string) :
  JS.digitsOnly (Form.formatPhoneNumber p) = JS.slice 0 10 (JS.digitsOnly p) /\
  Form.formatPhoneNumber (Form.formatPhoneNumber p) = Form.formatPhoneNumber p /\
  (String.length (Form.formatPhoneNumber p) <= 12)%nat.
Proof.
  split; [apply digitsOnly_formatPhoneNumber|]. split.
  - rewrite (formatPhoneNumber_congr (Form.formatPhoneNumber p)
               (JS.slice 0 10 (JS.digitsOnly p))).
    + destruct (Nat.leb_spec (String.length (JS.digitsOnly p)) 10) as [H|H].
      * apply formatPhoneNumber_congr. unfold JS.slice.
        rewrite substring_0_short by lia.
        apply digitsOnly_digits, allDigits_digitsOnly.
      * rewrite formatPhoneNumber_long;
          [|lia | apply allDigits_digitsOnly].
        apply formatPhoneNumber_congr.
        apply digitsOnly_digits, allDigits_digitsOnly.
    + rewrite digitsOnly_formatPhoneNumber. symmetry.
      apply digitsOnly_digits, allChars_substring, allDigits_digitsOnly.
  - unfold Form.formatPhoneNumber, JS.slice, JS.sliceFrom. cbv zeta.
    set (d := JS.digitsOnly p).
    destruct (Nat.leb_spec (String.length d) 3) as [H3|H3]; [lia|].
    destruct (Nat.leb_spec (String.length d) 6) as [H6|H6];
      [|destruct (Nat.leb_spec (String.length d) 10) as [H10|H10]];
      rewrite !length_append; cbn [String.length];
      repeat match goal with
             | |- context [String.length (String.substring ?a ?n d)] =>
                 let H := fresh in
                 pose proof (length_substring_le d a n) as H;
                 generalize dependent (String.length (String.substring a n d));
                 intros
             end; lia.
Qed.

(** X18. The form checks the phone in its display form, so the check
    depends on the first ten digits only: the formatted phone is accepted
    exactly when the input has no digit at all, or exactly nine digits
    starting with 0, or ten digits or more starting with 06, 08 or 09. *)
Theorem validatePhone_formatted (p : string) :
  let d := JS.digitsOnly p in
  Form.isValid (Form.validatePhone (Form.formatPhoneNumber p)) = true <->
  d = "" \/
  (String.length d = 9%nat /\ JS.startsWith "0" d = true) \/
  ((10 <= String.length d)%nat /\
   JS.startsWith "06" d || JS.startsWith "08" d || JS.startsWith "09" d = true).
Proof.
  intros d.
  destruct (string_dec (Form.formatPhoneNumber p) "") as [He|Hne].
  - rewrite He. apply formatPhoneNumber_empty_iff in He.
    split; [now left | reflexivity].
  - assert (Hd : d <> "")
      by (intros E; apply Hne, formatPhoneNumber_empty_iff, E).
    rewrite (validatePhone_nonempty _ Hne). cbv zeta.
    rewrite digitsOnly_formatPhoneNumber. fold d. unfold JS.slice.
    cbn [Nat.sub].
    assert (Hs : forall q, (String.length q <= 10)%nat ->
               JS.startsWith q (String.substring 0 10 d) = JS.startsWith q d)
      by (intros q Hq; now apply startsWith_of_prefix).
    rewrite !Hs by (simpl; lia). rewrite length_substring_0.
    set (mobile := JS.startsWith "06" d || JS.startsWith "08" d
                   || JS.startsWith "09" d).
    set (landline := JS.startsWith "0" d).
    set (n := String.length d).
    assert (Hn : n <> 0%nat)
      by (subst n; destruct d; [congruence | simpl; lia]).
    clearbody mobile landline n.
    destruct (Nat.ltb_spec (Nat.min 10 n) 9) as [H9|H9].
    { simpl. split; [discriminate|]. intros [E | [[E _] | [E _]]];
        [contradiction | lia | lia]. }
    destruct (Nat.ltb_spec 12 (Nat.min 10 n)) as [H12|H12]; [lia|].
    destruct (Nat.eqb_spec (Nat.min 10 n) 10) as [H10|H10];
      destruct (Nat.eqb_spec (Nat.min 10 n) 9) as [H9'|H9']; try lia;
      destruct mobile, landline; simpl;
      (split; [intros Hv; try discriminate;
               first [right; right; split; [lia | reflexivity]
                     | right; left; split; [lia | reflexivity]]
              | intros [E | [[E1 E2] | [E1 E2]]];
                first [contradiction | reflexivity | discriminate | lia]]).
Qed.

(** * Properties of names and titles *)
Section NameFacts.
Import Names.

Lemma stripTitle_nai (x : list N) : stripTitle (title_nai ++ x)%list = x.
Proof. reflexivity. Qed.

Lemma stripTitle_nang (x : list N) : stripTitle (title_nang ++ x)%list = x.
Proof. reflexivity. Qed.

Lemma stripTitle_nangsao (x : list N) :
  stripTitle (title_nangsao ++ x)%list = (sao ++ x)%list.
Proof. reflexivity. Qed.

Lemma forallb_cleanName (v : list N) : forallb nameChar (cleanName v) = true.
Proof.
  unfold cleanName. induction v as [|c v IH]; [reflexivity|].
  cbn [List.filter]. destruct (nameChar c) eqn:Hc; [|exact IH].
  cbn [forallb]. now rewrite Hc, IH.
Qed.

Lemma trim_nil : trim [] = [].
Proof. reflexivity. Qed.

End NameFacts.

(** X20. With the title นาย or นาง chosen, the name input shows the typed
    name (cleaned) and the form submits title and name. With the title
    นางสาว chosen, the title pattern matches its alternative นาง first and
    removes only that: after every change the name input shows สาว in
    front of the typed name, and the submitted full name is นางสาว, สาว and
    the name. *)
Theorem typed_name_shown_and_submitted (v g n : list N) :
  let typed t := Names.onFullName v (Names.mkNameFields t g n) in
  (Names.shownFullName (typed Names.title_nai) = Names.cleanName v /\
   Names.submitFullName (typed Names.title_nai)
   = (Names.title_nai ++ Names.cleanName v)%list) /\
  (Names.shownFullName (typed Names.title_nang) = Names.cleanName v /\
   Names.submitFullName (typed Names.title_nang)
   = (Names.title_nang ++ Names.cleanName v)%list) /\
  (Names.shownFullName (typed Names.title_nangsao)
   = (Names.sao ++ Names.cleanName v)%list /\
   Names.submitFullName (typed Names.title_nangsao)
   = (Names.title_nangsao ++ Names.sao ++ Names.cleanName v)%list).
Proof.
  intros typed. subst typed.
  unfold Names.shownFullName, Names.submitFullName, Names.onFullName.
  cbn [Names.fullName Names.titlePrefix Names.truthy Names.title_nai
       Names.title_nang Names.title_nangsao].
  fold Names.title_nai. fold Names.title_nang. fold Names.title_nangsao.
  rewrite stripTitle_nai, stripTitle_nang, stripTitle_nangsao.
  repeat split.
Qed.

(** X21. Choosing a title always overwrites the gender with the one the
    title stands for (none when the title is cleared), whatever it was. It
    replaces the title in front of the name when that was นาย or นาง; when
    it was นางสาว only นาง is removed, so สาว stays between the new title
    and the name, and stays in front of the name when the title is
    cleared. *)
Theorem title_change (value g name : list N) :
  (forall prev,
      Names.gender (Names.onTitlePrefix value prev)
      = Names.getGenderFromPrefix value /\
      Names.titlePrefix (Names.onTitlePrefix value prev) = value) /\
  Names.getGenderFromPrefix Names.title_nai = Names.gender_chai /\
  Names.getGenderFromPrefix Names.title_nang = Names.gender_ying /\
  Names.getGenderFromPrefix Names.title_nangsao = Names.gender_ying /\
  Names.getGenderFromPrefix [] = [] /\
  (forall t, t = Names.title_nai \/ t = Names.title_nang ->
     Names.fullName
       (Names.onTitlePrefix value (Names.mkNameFields t g (t ++ name)))
     = (value ++ name)%list) /\
  Names.fullName
    (Names.onTitlePrefix value
       (Names.mkNameFields Names.title_nangsao g
                           (Names.title_nangsao ++ name)))
  = (value ++ Names.sao ++ name)%list.
Proof.
  split; [intros prev; split; reflexivity|].
  do 4 (split; [reflexivity|]).
  split.
  - intros t [-> | ->]; unfold Names.onTitlePrefix; cbn [Names.fullName];
      rewrite ?stripTitle_nai, ?stripTitle_nang; now destruct value.
  - unfold Names.onTitlePrefix. cbn [Names.fullName].
    rewrite stripTitle_nangsao. now destruct value.
Qed.

(** X22. The form validates the name after cleaning it, and then only the
    length can fail: the cleaned name is accepted exactly when, trimmed, it
    has between 2 and 100 characters. *)
Theorem validateFullName_cleaned (v : list N) :
  Form.isValid (Names.validateFullName (Names.cleanName v)) = true <->
  (2 <= length (Names.trim (Names.cleanName v)) <= 100)%nat.
Proof.
  unfold Names.validateFullName.
  pose proof (forallb_cleanName v) as Hall.
  destruct (Names.cleanName v) as [|x c].
  - cbn [Names.truthy negb orb]. rewrite trim_nil. simpl.
    split; [discriminate | lia].
  - cbn [Names.truthy negb orb].
    set (n := length (Names.trim (x :: c))). clearbody n.
    destruct (Nat.eqb_spec n 0); [simpl; split; [discriminate | lia]|].
    destruct (Nat.ltb_spec n 2); [simpl; split; [discriminate | lia]|].
    destruct (Nat.ltb_spec 100 n); [simpl; split; [discriminate | lia]|].
    unfold Names.namePattern. cbn [Names.truthy andb]. rewrite Hall.
    simpl. split; [lia | reflexivity].
Qed.

(** * Properties of the age computed from the date of birth *)

(** X23. The age the form computes is the number of whole years lived: the
    anniversary of the birth date that many years on is today or earlier,
    and the next one is still to come. *)
Theorem ageOn_whole_years (today birthDate : Intake.Date) :
  let age := Intake.ageOn today birthDate in
  Intake.notAfter (Intake.anniversary birthDate age) today /\
  ~ Intake.notAfter (Intake.anniversary birthDate (age + 1)) today.
Proof.
  destruct today as [ty tm td], birthDate as [bY bm bd].
  unfold Intake.ageOn, Intake.notAfter, Intake.anniversary.
  cbn [Intake.getFullYear Intake.getMonth Intake.getDate]. cbv zeta.
  destruct (Z.ltb_spec (tm - bm) 0); destruct (Z.eqb_spec (tm - bm) 0);
    destruct (Z.ltb_spec td bd); cbn [orb andb]; lia.
Qed.

(** X24. With a date of birth present, the effect puts the computed age in
    the form exactly when it lies between 0 and 150 and leaves the age as it
    was otherwise; for a date of birth less than a year before today the
    computed age is 0, the form's age becomes 0, and validateAge rejects
    it. *)
Theorem ageEffect_outcome (today birthDate : Intake.Date) (formAge : Z) :
  let age := Intake.ageOn today birthDate in
  ((0 <= age <= 150)%Z -> Intake.ageEffect today birthDate formAge = age) /\
  (~ (0 <= age <= 150)%Z ->
   Intake.ageEffect today birthDate formAge = formAge) /\
  (Intake.notAfter birthDate today ->
   ~ Intake.notAfter (Intake.anniversary birthDate 1) today ->
   Intake.ageEffect today birthDate formAge = 0%Z /\
   Form.outcome (Form.validateAge (Intake.ageEffect today birthDate formAge))
   = Form.Reject).
Proof.
  intros age.
  assert (Hin : (0 <= age <= 150)%Z ->
                Intake.ageEffect today birthDate formAge = age).
  { intros Ha. unfold Intake.ageEffect. cbv zeta. fold age.
    destruct (Z.leb_spec 0 age); [|lia].
    destruct (Z.leb_spec age 150); [|lia].
    destruct (Z.eqb_spec age formAge); cbn [andb negb]; congruence. }
  split; [exact Hin|]. split.
  - intros Ha. unfold Intake.ageEffect. cbv zeta. fold age.
    destruct (Z.leb_spec 0 age); destruct (Z.leb_spec age 150);
      cbn [andb]; try reflexivity. lia.
  - intros Hborn Hyear.
    assert (Hzero : age = 0%Z).
    { subst age. destruct today as [ty tm td], birthDate as [bY bm bd].
      unfold Intake.ageOn, Intake.notAfter, Intake.anniversary in *.
      cbn [Intake.getFullYear Intake.getMonth Intake.getDate] in *.
      cbv zeta.
      destruct (Z.ltb_spec (tm - bm) 0); destruct (Z.eqb_spec (tm - bm) 0);
        destruct (Z.ltb_spec td bd); cbn [orb andb]; lia. }
    rewrite Hin by lia. rewrite Hzero. split; reflexivity.
Qed.

(** * Properties of the second add-patient form *)
Section FormV2Facts.
Import JS.

Lemma allDigits_not_HN (s ds : string) :
  allChars isDigit s = true -> s <> "HN" ++ ds.
Proof. intros Hs ->. discriminate. Qed.

Lemma submittedHN_unfold (value : string) :
  FormV2.submittedHN value =
    if isEmpty (digitsOnly value) then ""
    else padStart 6 "0" (slice 0 6 (digitsOnly value)).
Proof.
  unfold FormV2.submittedHN, FormV2.addLeadingZeros, FormV2.formatHN.
  cbv zeta. unfold slice. rewrite digitsOnly_substring.
  now destruct (digitsOnly value).
Qed.

Lemma allDigits_submittedHN (value : string) :
  allChars isDigit (FormV2.submittedHN value) = true.
Proof.
  rewrite submittedHN_unfold. destruct (isEmpty (digitsOnly value));
    [reflexivity|].
  rewrite allChars_padStart_0. apply allChars_substring, allDigits_digitsOnly.
Qed.

End FormV2Facts.

(** X25. The second form sends hospital numbers without the HN prefix:
    nothing when the input has no digit, else the first six digits typed,
    zero-padded to six, which its validateHN accepts. Such an hn is never
    canonical and is the key of no integer, so a record created under it is
    out of reach of get, whatever the integer. *)
Theorem submittedHN_digits_only (value : string) :
  let d := JS.digitsOnly value in
  (d = "" ->
   FormV2.submittedHN value = "" /\
   Form.isValid (FormV2.validateHN (FormV2.formatHN value)) = false) /\
  (d <> "" ->
   FormV2.submittedHN value = JS.padStart 6 "0" (JS.slice 0 6 d) /\
   String.length (FormV2.submittedHN value) = 6%nat /\
   Form.isValid (FormV2.validateHN (FormV2.formatHN value)) = true) /\
  JS.allChars JS.isDigit (FormV2.submittedHN value) = true /\
  Form.hnPattern (FormV2.submittedHN value) = false /\
  (forall n, Store.hnString n <> FormV2.submittedHN value) /\
  (forall clock r p n,
      Store.HN p = FormV2.submittedHN value ->
      Store.GetByID n (snd (Store.Create clock p r)) = Store.GetByID n r).
Proof.
  intros d.
  assert (Hnokey : forall n, Store.hnString n <> FormV2.submittedHN value).
  { intros n Heq. symmetry in Heq.
    apply (allDigits_not_HN _ _ (allDigits_submittedHN value)) in Heq.
    exact Heq. }
  split; [|split; [|split; [|split; [|split]]]].
  - intros Hd. rewrite submittedHN_unfold. fold d. rewrite Hd.
    split; [reflexivity|].
    unfold FormV2.formatHN. cbv zeta. fold d. rewrite Hd. reflexivity.
  - intros Hd. rewrite submittedHN_unfold. fold d.
    destruct d as [|c d'] eqn:Hdd; [congruence|]. cbn [JS.isEmpty].
    split; [reflexivity|]. split.
    + rewrite length_padStart. pose proof (length_slice_0 6 (String c d')).
      lia.
    + unfold FormV2.formatHN, FormV2.validateHN. cbv zeta. fold d.
      rewrite Hdd. unfold JS.slice at 1. cbn [Nat.sub String.substring JS.isEmpty].
      fold (JS.slice 0 6 (String c d')).
      assert (Hdig : JS.digitsOnly (JS.slice 0 6 (String c d'))
                     = JS.slice 0 6 (String c d')).
      { unfold JS.slice. rewrite <- Hdd. subst d. apply digitsOnly_substring. }
      change (String c (String.substring 0 5 d'))
        with (JS.slice 0 6 (String c d')).
      rewrite Hdig.
      pose proof (length_slice_0 6 (String c d')) as Hle.
      assert (Hpos : (1 <= String.length (JS.slice 0 6 (String c d')))%nat)
        by (unfold JS.slice; cbn; lia).
      destruct (Nat.ltb_spec (String.length (JS.slice 0 6 (String c d'))) 1);
        [lia|].
      destruct (Nat.ltb_spec 6 (String.length (JS.slice 0 6 (String c d'))));
        [lia | reflexivity].
  - apply allDigits_submittedHN.
  - destruct (Form.hnPattern (FormV2.submittedHN value)) eqn:Hp;
      [|reflexivity].
    apply hnPattern_startsWith in Hp as [ds Hds].
    now apply (allDigits_not_HN _ _ (allDigits_submittedHN value)) in Hds.
  - exact Hnokey.
  - intros clock r p n Hp. rewrite !GetByID_lookup.
    rewrite Create_other_key; [reflexivity|].
    rewrite Hp. apply Hnokey.
Qed.
